(** * Cipherstorm: the transaction router and the device service

    A shallow embedding of [app/services/device_service.py] and
    [app/routers/transaction.py].  Handlers are functions from the
    per-request environment ([World]: clock, random draws, network and
    mail outcomes, the scorer) and the process state ([State]: the
    database session and the module-level [otp_store]) to a result and a
    new state.  Python exceptions are values of [exn]; a computation that
    may raise has type [exn + A]. *)

From Stdlib Require Import ZArith String List Floats Lia.
From stdpp Require Import base option gmap strings list pretty sorting.

Open Scope string_scope.
Open Scope Z_scope.

(** ** Exceptions *)

Inductive exn :=
| HTTPException (status_code : Z) (detail : string)
| RequestException (msg : string)
| AttributeError (msg : string)
| IntegrityError (msg : string)
| SMTPException (msg : string)
| OtherException (msg : string).

(** [str(e)]; the framework prints an [HTTPException] as its status and
    detail. *)
Definition str_exn (e : exn) : string :=
  match e with
  | HTTPException c d => pretty c ++ ": " ++ d
  | RequestException m | AttributeError m | IntegrityError m
  | SMTPException m | OtherException m => m
  end.

Definition raise {A} (e : exn) : exn + A := inl e.
Definition ret {A} (a : A) : exn + A := inr a.
Definition bind {A B} (m : exn + A) (k : A → exn + B) : exn + B :=
  match m with inl e => inl e | inr a => k a end.

Notation "'let*' x ':=' m 'in' k" := (bind m (λ x, k))
  (at level 10, x name, m at level 100, k at level 200).
Notation "'let*' ' p ':=' m 'in' k" := (bind m (λ p, k))
  (at level 10, p strict pattern, m at level 100, k at level 200).

(** [try: body except Exception as e: handler(e)] *)
Definition try_except {A} (body : exn + A) (handler : exn → exn + A) : exn + A :=
  match body with inl e => handler e | inr a => inr a end.

(** ** datetime *)

Record datetime := {
  year : Z; month : Z; day : Z;
  dt_hour : Z; dt_minute : Z; second : Z; microsecond : Z
}.

(** Days since 1970-01-01 of a proleptic Gregorian date. *)
Definition days_from_civil (y m d : Z) : Z :=
  let y := if m <=? 2 then y - 1 else y in
  let era := y / 400 in
  let yoe := y - era * 400 in
  let doy := (153 * (if 2 <? m then m - 3 else m + 9) + 2) / 5 + d - 1 in
  let doe := yoe * 365 + yoe / 4 - yoe / 100 + doy in
  era * 146097 + doe - 719468.

(** [dt.weekday()]: Monday is 0. *)
Definition weekday (dt : datetime) : Z :=
  (days_from_civil (year dt) (month dt) (day dt) + 3) mod 7.

(** Microseconds on the time line; the order of [created_at]. *)
Definition instant (dt : datetime) : Z :=
  (((days_from_civil (year dt) (month dt) (day dt) * 24 + dt_hour dt) * 60
    + dt_minute dt) * 60 + second dt) * 1000000 + microsecond dt.

Definition pad2 (n : Z) : string :=
  if n <? 10 then "0" ++ pretty n else pretty n.

(** [dt.strftime("%Y-%m-%d %H:%M:%S")] *)
Definition strftime (dt : datetime) : string :=
  pretty (year dt) ++ "-" ++ pad2 (month dt) ++ "-" ++ pad2 (day dt) ++ " "
  ++ pad2 (dt_hour dt) ++ ":" ++ pad2 (dt_minute dt) ++ ":" ++ pad2 (second dt).

(** Truthiness of an optional string ([None] and the empty string are
    false) and of an optional float ([None] and zero are false). *)
Definition truthy_str (o : option string) : bool :=
  match o with Some s => negb (String.eqb s "") | None => false end.

Definition truthy_float (o : option float) : bool :=
  match o with Some f => negb (PrimFloat.eqb f 0%float) | None => false end.

(** ** app/services/device_service.py *)

Module DeviceService.

(** The part of the framework request the service reads. *)
Record Request := {
  cookies : gmap string string;
  headers : gmap string string
}.

(** The decoded body of the ipapi.co answer; a field is [None] when the
    key is missing from the object. *)
Record GeoJson := {
  js_ip : option string;
  js_country_name : option string;
  js_city : option string;
  js_latitude : option float;
  js_longitude : option float
}.

(** What [requests.get(..., timeout=5)] and the two calls on its result
    do: the request itself may raise (connection error, timeout),
    [raise_for_status] raises on an error status, [response.json()]
    raises on a body that does not decode. *)
Inductive HttpGet :=
| GetRaises (e : exn)
| GetResponse (raise_for_status : option exn) (json : exn + GeoJson).

Record LocationData := {
  loc_country : string;
  loc_city : string;
  loc_latitude : option float;
  loc_longitude : option float
}.

Definition is_request_exception (e : exn) : bool :=
  match e with RequestException _ => true | _ => false end.

Definition fallback : string * LocationData :=
  ("127.0.0.1",
   {| loc_country := "Unknown"; loc_city := "Unknown";
      loc_latitude := None; loc_longitude := None |}).

Definition requests_get (net : HttpGet) : exn + (option exn * (exn + GeoJson)) :=
  match net with
  | GetRaises e => raise e
  | GetResponse st js => ret (st, js)
  end.

Definition get_ip_and_location_data (net : HttpGet) : exn + (string * LocationData) :=
  try_except
    (let* response := requests_get net in
     let* _ := match fst response with Some e => raise e | None => ret () end in
     let* data := snd response in
     let ip_address := default "127.0.0.1" (js_ip data) in
     let location_data :=
       {| loc_country := default "Unknown" (js_country_name data);
          loc_city := default "Unknown" (js_city data);
          loc_latitude := js_latitude data;
          loc_longitude := js_longitude data |} in
     ret (ip_address, location_data))
    (λ e, if is_request_exception e then ret fallback else ret fallback).

Definition get_device_id_from_request (request : Request) : string :=
  let device_id := cookies request !! "device_id" in
  let device_id :=
    if negb (truthy_str device_id) then headers request !! "X-Device-ID"
    else device_id in
  match device_id with
  | Some s => if negb (truthy_str device_id) then "unknown_device" else s
  | None => "unknown_device"
  end.

Record Derived := {
  device_id : string;
  ip_address : string;
  country : string;
  city : string;
  latitude : option float;
  longitude : option float;
  initiation_mode : string
}.

Definition calculate_derived_columns (request : Request) (net : HttpGet)
  : exn + Derived :=
  let device_id := get_device_id_from_request request in
  let* '(ip_address, location_data) := get_ip_and_location_data net in
  ret {| device_id := device_id;
         ip_address := ip_address;
         country := loc_country location_data;
         city := loc_city location_data;
         latitude := loc_latitude location_data;
         longitude := loc_longitude location_data;
         initiation_mode := "Default" |}.

End DeviceService.

(** ** app/models *)

(** Modelled from the spec: the column types of the three ORM models
    ([app/models/profile.py], [user.py] and [transaction.py] are not part
    of the sources).  The field names are the attributes the router reads
    and the keyword arguments of its [Transaction(...)] calls; the fraud
    flag is the spec's tri-state ([None] is undetermined). *)
Module Profile.
Record t := { user_id : Z; upi_id : string; email : string }.
End Profile.

Module User.
Record t := { user_id : Z; email : string }.
End User.

Module Transaction.
Record t := {
  transaction_id : string;
  user_id : Z;
  amount : float;
  transaction_type : string;
  payment_instrument : string;
  payer_vpa : string;
  beneficiary_vpa : string;
  initiation_mode : string;
  device_id : string;
  ip_address : string;
  latitude : option float;
  longitude : option float;
  country : string;
  city : string;
  day_of_week : Z;
  hour : Z;
  minute : Z;
  is_night : bool;
  created_at : datetime;
  is_fraud : option bool
}.

Definition with_is_fraud (flag : option bool) (x : t) : t :=
  {| transaction_id := transaction_id x; user_id := user_id x;
     amount := amount x; transaction_type := transaction_type x;
     payment_instrument := payment_instrument x; payer_vpa := payer_vpa x;
     beneficiary_vpa := beneficiary_vpa x;
     initiation_mode := initiation_mode x; device_id := device_id x;
     ip_address := ip_address x; latitude := latitude x;
     longitude := longitude x; country := country x; city := city x;
     day_of_week := day_of_week x; hour := hour x; minute := minute x;
     is_night := is_night x; created_at := created_at x;
     is_fraud := flag |}.
End Transaction.

(** ** The database session *)

Record DB := {
  profiles : list Profile.t;
  users : list User.t;
  transactions : list Transaction.t
}.

Definition with_transactions (l : list Transaction.t) (d : DB) : DB :=
  {| profiles := profiles d; users := users d; transactions := l |}.

(** [db.query(Profile).filter(Profile.user_id == uid).first()] *)
Definition query_profile (d : DB) (uid : Z) : option Profile.t :=
  head (filter (λ p, Profile.user_id p = uid) (profiles d)).

(** [db.query(User).filter(User.user_id == uid).first()] *)
Definition query_user (d : DB) (uid : Z) : option User.t :=
  head (filter (λ u, User.user_id u = uid) (users d)).

Definition user_transactions (d : DB) (uid : Z) : list Transaction.t :=
  filter (λ x, Transaction.user_id x = uid) (transactions d).

(** [….order_by(Transaction.created_at.desc()).first()]; among rows of
    equal [created_at] the earliest inserted one is returned. *)
Definition latest (l : list Transaction.t) : option Transaction.t :=
  foldl (λ acc x,
           match acc with
           | None => Some x
           | Some b =>
               if instant (Transaction.created_at b) <? instant (Transaction.created_at x)
               then Some x else Some b
           end) None l.

(** [db.query(Transaction).filter(...).count()] *)
Definition count_transactions (d : DB) (uid : Z) : nat :=
  length (user_transactions d uid).

(** [db.query(Transaction).get(txn_id)]: lookup by primary key. *)
Definition get_transaction (d : DB) (txn_id : string) : option Transaction.t :=
  head (filter (λ x, Transaction.transaction_id x = txn_id) (transactions d)).

(** [db.add(txn); db.commit()]: the primary key must be unused. *)
Definition add_commit (x : Transaction.t) (d : DB) : exn + DB :=
  match get_transaction d (Transaction.transaction_id x) with
  | Some _ => raise (IntegrityError "duplicate key transaction_id")
  | None => ret (with_transactions (transactions d ++ [x])%list d)
  end.

(** [txn.is_fraud = flag; db.commit()] on the attached row [txn_id]. *)
Definition set_is_fraud_commit (txn_id : string) (flag : bool) (d : DB) : DB :=
  with_transactions
    (map (λ x, if decide (Transaction.transaction_id x = txn_id)
               then Transaction.with_is_fraud (Some flag) x else x)
         (transactions d)) d.

(** [db.delete(txn); db.commit()] *)
Definition delete_commit (txn_id : string) (d : DB) : DB :=
  with_transactions
    (filter (λ x, Transaction.transaction_id x ≠ txn_id) (transactions d)) d.

(** ** app/routers/transaction.py *)

Module TransactionRouter.
Import DeviceService.

(** A value of [otp_store]: the legacy endpoint stores the drawn
    integer, the step-up endpoint stores its decimal text. *)
Inductive otp_value := OtpInt (n : Z) | OtpStr (s : string).

(** The process state: the database and the module-level [otp_store].
    A key is a form field that may be missing ([Form(None)]), hence an
    optional string. *)
Record State := {
  db : DB;
  otp_store : gmap (option string) otp_value
}.

Definition with_db (d : DB) (st : State) : State :=
  {| db := d; otp_store := otp_store st |}.
Definition with_otp_store (m : gmap (option string) otp_value) (st : State) : State :=
  {| db := db st; otp_store := m |}.

Record Location := { loc_lat : float; loc_lon : float }.

Record FraudResult := { final_prediction : Z; report : string }.

(** [app.config.settings]; [None] is an attribute that is not defined. *)
Record Settings := {
  EMAIL_FROM : option string;
  EMAIL_PASSWORD : option string;
  SMTP_SERVER : option string;
  SMTP_PORT : option Z;
  SMTP_USERNAME : option string;
  SMTP_PASSWORD : option string
}.

Definition getattr {A} (name : string) (o : option A) : exn + A :=
  match o with Some a => ret a | None => raise (AttributeError name) end.

(** The two mail bodies; the HTML one is determined by the code it shows. *)
Inductive Body := PlainBody (text : string) | HtmlOtpBody (otp : string).

Record Message := {
  msg_from : string;
  msg_to : option string;
  msg_subject : string;
  msg_body : Body
}.

(** What one request sees of the outside: the clock, the identifier and
    code drawn, the geolocation answer, the scorer, the configuration
    and the mail server ([Some e] when the step raises [e]). *)
Record World := {
  now : datetime;
  uuid4 : string;
  randint : Z;
  http_get : HttpGet;
  run_fraud_pipeline :
    Transaction.t → Profile.t → nat → option Location → DB → exn + FraudResult;
  settings : Settings;
  smtp_connect : string → Z → option exn;
  smtp_login_send : string → string → Message → option exn
}.

Definition check (o : option exn) : exn + () :=
  match o with Some e => raise e | None => ret () end.

(** The location of the user's latest transaction, when it has both
    coordinates and neither is zero. *)
Definition last_location (d : DB) (uid : Z) : option Location :=
  match latest (user_transactions d uid) with
  | Some last_txn =>
      if truthy_float (Transaction.latitude last_txn)
         && truthy_float (Transaction.longitude last_txn)
      then match Transaction.latitude last_txn, Transaction.longitude last_txn with
           | Some la, Some lo => Some {| loc_lat := la; loc_lon := lo |}
           | _, _ => None
           end
      else None
  | None => None
  end.

(** The [Transaction(...)] call both submission handlers make. *)
Definition new_transaction (w : World) (current_user : User.t)
    (amount : float) (transaction_type payment_method recipient_upi_id : string)
    (profile : Profile.t) (derived_data : Derived) : Transaction.t :=
  let now := now w in
  let is_night := (dt_hour now <? 6) || (22 <? dt_hour now) in
  {| Transaction.transaction_id := uuid4 w;
     Transaction.user_id := User.user_id current_user;
     Transaction.amount := amount;
     Transaction.transaction_type := transaction_type;
     Transaction.payment_instrument := payment_method;
     Transaction.payer_vpa := Profile.upi_id profile;
     Transaction.beneficiary_vpa := recipient_upi_id;
     Transaction.initiation_mode := DeviceService.initiation_mode derived_data;
     Transaction.device_id := DeviceService.device_id derived_data;
     Transaction.ip_address := DeviceService.ip_address derived_data;
     Transaction.latitude := DeviceService.latitude derived_data;
     Transaction.longitude := DeviceService.longitude derived_data;
     Transaction.country := DeviceService.country derived_data;
     Transaction.city := DeviceService.city derived_data;
     Transaction.day_of_week := weekday now;
     Transaction.hour := dt_hour now;
     Transaction.minute := dt_minute now;
     Transaction.is_night := is_night;
     Transaction.created_at := now;
     Transaction.is_fraud := None |}.

(** *** POST /transaction/ *)

Inductive PredictResponse :=
| Detail (detail : string)
| Prediction (result : FraudResult).

(** The mail block of the legacy endpoint; nothing catches what it raises. *)
Definition send_legacy_mail (w : World) (profile : Profile.t) (otp : Z) : exn + () :=
  let* from := getattr "EMAIL_FROM" (EMAIL_FROM (settings w)) in
  let msg := {| msg_from := from;
                msg_to := Some (Profile.email profile);
                msg_subject := "Your OTP Code";
                msg_body := PlainBody ("Your OTP code is " ++ pretty otp
                                       ++ ". It is valid for 10 minutes.") |} in
  let* server := getattr "SMTP_SERVER" (SMTP_SERVER (settings w)) in
  let* port := getattr "SMTP_PORT" (SMTP_PORT (settings w)) in
  let* _ := check (smtp_connect w server port) in
  let* password := getattr "EMAIL_PASSWORD" (EMAIL_PASSWORD (settings w)) in
  check (smtp_login_send w from password msg).

Definition create_and_predict_transaction (w : World) (request : Request)
    (amount : float) (transaction_type payment_method recipient_upi_id : string)
    (current_user : User.t) (st : State) : (exn + PredictResponse) * State :=
  match query_profile (db st) (User.user_id current_user) with
  | None => (raise (HTTPException 404 "User profile not found"), st)
  | Some profile =>
    match calculate_derived_columns request (http_get w) with
    | inl e => (raise e, st)
    | inr derived_data =>
      let last_transaction_location :=
        last_location (db st) (User.user_id current_user) in
      let new_txn := new_transaction w current_user amount transaction_type
                       payment_method recipient_upi_id profile derived_data in
      match add_commit new_txn (db st) with
      | inl e => (raise e, st)
      | inr db1 =>
        let txn_count := count_transactions db1 (User.user_id current_user) in
        match run_fraud_pipeline w new_txn profile txn_count
                last_transaction_location db1 with
        | inl e => (raise e, with_db db1 st)
        | inr result =>
          let is_fraud := negb (final_prediction result =? 0) in
          let db2 := set_is_fraud_commit (uuid4 w) is_fraud db1 in
          if is_fraud then
            let otp := randint w in
            let st' := {| db := db2;
                          otp_store := <[Some (Profile.upi_id profile) := OtpInt otp]>
                                         (otp_store st) |} in
            (let* _ := send_legacy_mail w profile otp in
             ret (Detail "Fraud detected. OTP sent to registered email."),
             st')
          else (ret (Prediction result), with_db db2 st)
        end
      end
    end
  end.

(** *** POST /transaction/verify_otp *)

Definition otp_truthy (v : otp_value) : bool :=
  match v with OtpInt n => negb (n =? 0) | OtpStr s => negb (String.eqb s "") end.

(** [stored == otp] for an integer [otp]. *)
Definition otp_eq_int (v : otp_value) (otp : Z) : bool :=
  match v with OtpInt n => n =? otp | OtpStr _ => false end.

Definition verify_otp (otp : Z) (current_user : User.t) (st : State)
  : (exn + string) * State :=
  match query_profile (db st) (User.user_id current_user) with
  | None => (raise (HTTPException 404 "User profile not found"), st)
  | Some profile =>
    let stored_otp := otp_store st !! Some (Profile.upi_id profile) in
    match stored_otp with
    | Some v =>
        if negb (otp_truthy v) || negb (otp_eq_int v otp)
        then (raise (HTTPException 400 "Invalid or expired OTP"), st)
        else (ret "OTP verified successfully. Transaction approved.",
              with_otp_store (delete (Some (Profile.upi_id profile)) (otp_store st)) st)
    | None => (raise (HTTPException 400 "Invalid or expired OTP"), st)
    end
  end.

(** *** DELETE /transaction/{txn_id} *)

Definition delete_transaction (txn_id : string) (current_user : User.t) (st : State)
  : (exn + string) * State :=
  match get_transaction (db st) txn_id with
  | None => (raise (HTTPException 404 "Transaction not found"), st)
  | Some txn => (ret "Transaction deleted", with_db (delete_commit txn_id (db st)) st)
  end.

(** *** Template responses *)

(** The [transaction_data] dictionary of [process_transaction]. *)
Record TransactionData := {
  td_transaction_id : string;
  td_amount : float;
  td_transaction_type : string;
  td_payment_method : string;
  td_to_account : string;
  td_timestamp : string;
  td_from_account : string
}.

(** The [temp_txn_data] dictionary carried through the challenge. *)
Record TempTxnData := {
  tmp_amount : float;
  tmp_transaction_type : string;
  tmp_payment_method : string;
  tmp_recipient_upi_id : string;
  tmp_derived_data : Derived;
  tmp_txn_count : nat;
  tmp_last_transaction_location : option Location
}.

(** The text [json.dumps({**transaction_data, "temp_txn_data": ...})],
    represented by the value it serializes. *)
Record TransactionJson := {
  tj_transaction_data : TransactionData;
  tj_temp_txn_data : TempTxnData
}.

(** A rendered template with its context; a context key that a branch
    leaves out is [false] for [otp_sent] and [None] for the messages. *)
Inductive TemplateResponse :=
| StepUpChallenge (user : User.t) (fraud_details : FraudResult)
    (transaction_data : TransactionJson) (user_email : option string)
| TransactionResults (user : User.t) (transaction_data : TransactionData)
    (fraud_report : FraudResult)
| StepUp (user : User.t) (otp_sent : bool) (user_email : option string)
    (transaction_data : option string) (success error : option string)
| StepUpError (user : User.t) (error : string)
| IdentityVerified (user : User.t).

(** *** POST /transaction/process *)

Definition process_body (w : World) (request : Request)
    (amount : float) (transaction_type payment_method recipient_upi_id : string)
    (current_user : User.t) (st : State) : exn + (TemplateResponse * State) :=
  let profile := query_profile (db st) (User.user_id current_user) in
  let user := query_user (db st) (User.user_id current_user) in
  match profile with
  | None => raise (HTTPException 404 "User profile not found")
  | Some profile =>
    let* derived_data := calculate_derived_columns request (http_get w) in
    let last_transaction_location :=
      last_location (db st) (User.user_id current_user) in
    let temp_txn := new_transaction w current_user amount transaction_type
                      payment_method recipient_upi_id profile derived_data in
    let txn_count := count_transactions (db st) (User.user_id current_user) in
    let* fraud_result := run_fraud_pipeline w temp_txn profile txn_count
                           last_transaction_location (db st) in
    let transaction_data :=
      {| td_transaction_id := uuid4 w;
         td_amount := amount;
         td_transaction_type := transaction_type;
         td_payment_method := payment_method;
         td_to_account := recipient_upi_id;
         td_timestamp := strftime (now w);
         td_from_account := Profile.upi_id profile |} in
    if final_prediction fraud_result =? 1 then
      let transaction_json :=
        {| tj_transaction_data := transaction_data;
           tj_temp_txn_data :=
             {| tmp_amount := amount;
                tmp_transaction_type := transaction_type;
                tmp_payment_method := payment_method;
                tmp_recipient_upi_id := recipient_upi_id;
                tmp_derived_data := derived_data;
                tmp_txn_count := txn_count;
                tmp_last_transaction_location := last_transaction_location |} |} in
      ret (StepUpChallenge current_user fraud_result transaction_json
             (User.email <$> user), st)
    else
      let* db1 := add_commit (Transaction.with_is_fraud (Some false) temp_txn) (db st) in
      ret (TransactionResults current_user transaction_data fraud_result,
           with_db db1 st)
  end.

Definition process_transaction (w : World) (request : Request)
    (amount : float) (transaction_type payment_method recipient_upi_id : string)
    (current_user : User.t) (st : State) : (exn + TemplateResponse) * State :=
  match process_body w request amount transaction_type payment_method
          recipient_upi_id current_user st with
  | inl e =>
      (raise (HTTPException 500 ("Transaction processing failed: " ++ str_exn e)), st)
  | inr (response, st') => (ret response, st')
  end.

(** *** send_otp_email *)

Definition send_otp_email (w : World) (email : option string) (otp : string)
  : exn + bool :=
  try_except
    (let msg :=
       {| msg_from := default "noreply@cipherstorm.com" (SMTP_USERNAME (settings w));
          msg_to := email;
          msg_subject := "CipherStorm - Transaction Verification OTP";
          msg_body := HtmlOtpBody otp |} in
     match SMTP_SERVER (settings w) with
     | Some server =>
         let* port := getattr "SMTP_PORT" (SMTP_PORT (settings w)) in
         let* _ := check (smtp_connect w server port) in
         let* username := getattr "SMTP_USERNAME" (SMTP_USERNAME (settings w)) in
         let* password := getattr "SMTP_PASSWORD" (SMTP_PASSWORD (settings w)) in
         let* _ := check (smtp_login_send w username password msg) in
         ret true
     | None => ret true
     end)
    (λ e, ret false).

(** *** POST /transaction/auth/step-up-verify *)

(** [stored == otp] for the form text [otp] (an absent field is [None]). *)
Definition otp_eq_str (v : otp_value) (otp : option string) : bool :=
  match v, otp with
  | OtpStr s, Some o => String.eqb s o
  | _, _ => false
  end.

Definition step_up_verify (w : World) (action : string)
    (email otp transaction_data : option string)
    (current_user : User.t) (st : State) : option TemplateResponse * State :=
  if String.eqb action "send_otp" then
    let otp_code := pretty (randint w) in
    let st' := with_otp_store (<[email := OtpStr otp_code]> (otp_store st)) st in
    match send_otp_email w email otp_code with
    | inr true =>
        (Some (StepUp current_user true email transaction_data
                 (Some "OTP sent successfully to your email!") None), st')
    | inr false =>
        (Some (StepUp current_user false email transaction_data
                 None (Some "Failed to send OTP. Please try again.")), st')
    | inl e => (Some (StepUpError current_user ("An error occurred: " ++ str_exn e)), st')
    end
  else if String.eqb action "verify_otp" then
    match otp_store st !! email with
    | Some v =>
        if otp_eq_str v otp then
          (Some (IdentityVerified current_user),
           with_otp_store (delete email (otp_store st)) st)
        else
          (Some (StepUp current_user true email transaction_data
                   None (Some "Invalid OTP. Please try again.")), st)
    | None =>
        (Some (StepUp current_user true email transaction_data
                 None (Some "Invalid OTP. Please try again.")), st)
    end
  else if String.eqb action "resend_otp" then
    let otp_code := pretty (randint w) in
    let st' := with_otp_store (<[email := OtpStr otp_code]> (otp_store st)) st in
    match send_otp_email w email otp_code with
    | inr success =>
        (Some (StepUp current_user true email transaction_data
                 (Some (if success then "OTP resent successfully!"
                        else "Failed to resend OTP.")) None), st')
    | inl e => (Some (StepUpError current_user ("An error occurred: " ++ str_exn e)), st')
    end
  else (None, st).

(** *** GET /transaction/transactions *)

Inductive ViewResponse :=
| RedirectResponse (url : string)
| DashboardPage (user : User.t) (transactions : list Transaction.t).

(** [a] may stand before [b] under [order_by(desc(Transaction.created_at))]. *)
Definition newest_first (a b : Transaction.t) : Prop :=
  instant (Transaction.created_at b) ≤ instant (Transaction.created_at a).

#[global] Instance newest_first_dec : RelDecision newest_first.
Proof. intros a b. unfold newest_first. apply _. Defined.

(** The handler calls [get_current_user(request)] itself (the function is
    in [app/routers/auth.py], outside the sources): it is a parameter, and
    [None] is a request that carries no session. *)
Definition view_transactions (get_current_user : Request → option User.t)
    (request : Request) (st : State) : ViewResponse :=
  match get_current_user request with
  | None => RedirectResponse "/auth/login"
  | Some user =>
      let transactions :=
        merge_sort newest_first (user_transactions (db st) (User.user_id user)) in
      DashboardPage user transactions
  end.

End TransactionRouter.

(** ** Vocabulary of the properties *)

Import DeviceService TransactionRouter.

(** The geolocation lookup failed: the request raised, the status was an
    error, or the body did not decode. *)
Definition lookup_fails (net : HttpGet) : bool :=
  match net with
  | GetRaises _ => true
  | GetResponse (Some _) _ => true
  | GetResponse None (inl _) => true
  | GetResponse None (inr _) => false
  end.

(** The same response with the echoed [user] entry replaced. *)
Definition with_user (u : User.t) (r : TemplateResponse) : TemplateResponse :=
  match r with
  | StepUpChallenge _ f t e => StepUpChallenge u f t e
  | TransactionResults _ t f => TransactionResults u t f
  | StepUp _ s e t ok err => StepUp u s e t ok err
  | StepUpError _ err => StepUpError u err
  | IdentityVerified _ => IdentityVerified u
  end.

(** The number of challenges the store holds for a key. *)
Definition active_challenges (m : gmap (option string) otp_value)
    (k : option string) : nat :=
  length (filter (λ kv, kv.1 = k) (map_to_list m)).

(** The page every failed step-up verification answers with. *)
Definition invalid_otp_page (u : User.t) (email transaction_data : option string)
  : TemplateResponse :=
  StepUp u true email transaction_data None (Some "Invalid OTP. Please try again.").

(** A client that submits the codes [guesses] one after the other to the
    verify action; the responses come back in order. *)
Fixpoint verify_attempts (w : World) (email : option string)
    (guesses : list (option string)) (transaction_data : option string)
    (u : User.t) (st : State) : list (option TemplateResponse) * State :=
  match guesses with
  | [] => ([], st)
  | g :: rest =>
      let '(r, st1) := step_up_verify w "verify_otp" email g transaction_data u st in
      let '(rs, st2) := verify_attempts w email rest transaction_data u st1 in
      (r :: rs, st2)
  end.

(** One step of [latest]: the newer of the row kept so far and the next. *)
Definition newer (acc : option Transaction.t) (x : Transaction.t) : option Transaction.t :=
  match acc with
  | None => Some x
  | Some b =>
      if instant (Transaction.created_at b) <? instant (Transaction.created_at x)
      then Some x else Some b
  end.

(** The order of the dashboard is total and transitive. *)
#[global] Instance newest_first_total : Total newest_first.
Proof. intros a b. unfold newest_first. lia. Qed.

#[global] Instance newest_first_trans : Transitive newest_first.
Proof. intros a b c. unfold newest_first. lia. Qed.

(** The validity window the mails announce: ten minutes, in microseconds. *)
Definition otp_validity : Z := 10 * 60 * 1000000.

(** ** A concrete deployment, for evaluating the handlers *)

Module Scenario.

Definition alice : User.t :=
  {| User.user_id := 1; User.email := "alice@example.com" |}.
Definition mallory : User.t :=
  {| User.user_id := 2; User.email := "mallory@example.com" |}.

Definition alice_profile : Profile.t :=
  {| Profile.user_id := 1; Profile.upi_id := "alice@upi";
     Profile.email := "alice@example.com" |}.
Definition mallory_profile : Profile.t :=
  {| Profile.user_id := 2; Profile.upi_id := "mallory@upi";
     Profile.email := "mallory@example.com" |}.

Definition db0 : DB :=
  {| profiles := [alice_profile; mallory_profile];
     users := [alice; mallory];
     transactions := [] |}.

Definition st0 : State := {| db := db0; otp_store := ∅ |}.

Definition request0 : Request := {| cookies := ∅; headers := ∅ |}.

(** 2024-01-01, a Monday, at [h]:[m]. *)
Definition clock (h m : Z) : datetime :=
  {| year := 2024; month := 1; day := 1;
     dt_hour := h; dt_minute := m; second := 0; microsecond := 0 |}.

Definition mail_settings : Settings :=
  {| EMAIL_FROM := Some "noreply@bank.example";
     EMAIL_PASSWORD := Some "secret";
     SMTP_SERVER := Some "smtp.bank.example";
     SMTP_PORT := Some 587;
     SMTP_USERNAME := Some "noreply@bank.example";
     SMTP_PASSWORD := Some "secret" |}.

(** A world whose scorer answers [verdict], whose clock reads [t], whose
    random draw is [code], whose geolocation lookup times out and whose
    mail server is reachable exactly when [mail_up]. *)
Definition world (verdict : Z) (t : datetime) (code : Z) (mail_up : bool) : World :=
  {| now := t;
     uuid4 := "7f9c24e8-3b12-4f6a-9d55-0c1e2a3b4c5d";
     randint := code;
     http_get := GetRaises (RequestException "timeout");
     run_fraud_pipeline := λ _ _ _ _ _,
       inr {| final_prediction := verdict; report := "scored" |};
     settings := mail_settings;
     smtp_connect := λ _ _,
       if mail_up then None else Some (SMTPException "connection refused");
     smtp_login_send := λ _ _ _, None |}.

(** What enrichment yields for [request0] when the lookup times out. *)
Definition derived0 : Derived :=
  {| device_id := "unknown_device"; ip_address := "127.0.0.1";
     country := "Unknown"; city := "Unknown";
     latitude := None; longitude := None; initiation_mode := "Default" |}.

(** Alice sends 250 to Bob at noon. *)
Definition w_noon (verdict : Z) (mail_up : bool) : World :=
  world verdict (clock 12 0) 123456 mail_up.

Definition candidate : Transaction.t :=
  new_transaction (w_noon 0 true) alice 250%float "transfer" "upi" "bob@upi"
    alice_profile derived0.

(** The state with that transfer committed as not fraudulent. *)
Definition st_paid : State :=
  {| db := with_transactions [Transaction.with_is_fraud (Some false) candidate] db0;
     otp_store := ∅ |}.

(** A world whose lookup answers with a place, and the state after Alice's
    transfer has been committed there. *)
Definition w_located : World :=
  {| now := clock 12 0;
     uuid4 := "7f9c24e8-3b12-4f6a-9d55-0c1e2a3b4c5d";
     randint := 123456;
     http_get :=
       GetResponse None
         (inr {| js_ip := Some "203.0.113.7"; js_country_name := Some "India";
                 js_city := Some "Mumbai"; js_latitude := Some 19%float;
                 js_longitude := Some 72.5%float |});
     run_fraud_pipeline := λ _ _ _ _ _,
       inr {| final_prediction := 0; report := "scored" |};
     settings := mail_settings;
     smtp_connect := λ _ _, None;
     smtp_login_send := λ _ _ _, None |}.

Definition st_located : State :=
  (process_transaction w_located request0 250%float "transfer" "upi" "bob@upi"
     alice st0).2.

End Scenario.

(** * Properties *)

Import Scenario.

(** ** The model on concrete inputs *)

Example epoch_is_day_zero : days_from_civil 1970 1 1 = 0.
Proof. reflexivity. Qed.

Example epoch_is_a_thursday :
  weekday {| year := 1970; month := 1; day := 1; dt_hour := 0; dt_minute := 0;
             second := 0; microsecond := 0 |} = 3.
Proof. reflexivity. Qed.

Example leap_day_2024_is_a_thursday :
  weekday {| year := 2024; month := 2; day := 29; dt_hour := 0; dt_minute := 0;
             second := 0; microsecond := 0 |} = 3.
Proof. reflexivity. Qed.

Example clock_is_a_monday : weekday (clock 12 0) = 0.
Proof. reflexivity. Qed.

Example strftime_pads : strftime (clock 9 5) = "2024-01-01 09:05:00".
Proof. vm_compute. reflexivity. Qed.

Example eleven_minutes_later :
  instant (clock 12 11) - instant (clock 12 0) = 11 * 60 * 1000000.
Proof. reflexivity. Qed.

Example cookie_before_header :
  get_device_id_from_request
    {| cookies := {[ "device_id" := "from-cookie" ]};
       headers := {[ "X-Device-ID" := "from-header" ]} |} = "from-cookie".
Proof. reflexivity. Qed.

Example empty_cookie_falls_to_header :
  get_device_id_from_request
    {| cookies := {[ "device_id" := "" ]};
       headers := {[ "X-Device-ID" := "from-header" ]} |} = "from-header".
Proof. reflexivity. Qed.

Example lookup_answer_is_used :
  get_ip_and_location_data
    (GetResponse None
       (inr {| js_ip := Some "203.0.113.7"; js_country_name := Some "India";
               js_city := None; js_latitude := Some 19%float;
               js_longitude := Some 72.5%float |}))
  = inr ("203.0.113.7",
         {| loc_country := "India"; loc_city := "Unknown";
            loc_latitude := Some 19%float; loc_longitude := Some 72.5%float |}).
Proof. reflexivity. Qed.

Example missing_profile_is_500_on_process :
  (process_transaction (w_noon 0 true) request0 250%float "transfer" "upi" "bob@upi"
     {| User.user_id := 9; User.email := "nobody@example.com" |} st0).1
  = inl (HTTPException 500
           "Transaction processing failed: 404: User profile not found").
Proof. vm_compute. reflexivity. Qed.

Example legacy_code_is_not_a_step_up_code :
  let after := (create_and_predict_transaction (w_noon 1 true) request0 250%float
                  "transfer" "upi" "bob@upi" alice st0).2 in
  (step_up_verify (w_noon 1 true) "verify_otp" (Some "alice@upi") (Some "123456")
     None alice after).1
  = Some (invalid_otp_page alice (Some "alice@upi") None).
Proof. vm_compute. reflexivity. Qed.

(** ** Tables *)

Lemma get_transaction_delete_commit d txn_id :
  get_transaction (delete_commit txn_id d) txn_id = None.
Proof.
  unfold get_transaction, delete_commit; simpl.
  induction (transactions d) as [|x l IH]; [done|].
  rewrite (filter_cons (λ x, Transaction.transaction_id x ≠ txn_id)).
  destruct (decide (Transaction.transaction_id x ≠ txn_id)) as [Hne|Heq]; [|done].
  rewrite filter_cons. destruct (decide _); [contradiction|done].
Qed.

Lemma get_transaction_delete_commit_ne d txn_id other :
  other ≠ txn_id →
  get_transaction (delete_commit txn_id d) other = get_transaction d other.
Proof.
  intros Hne. unfold get_transaction, delete_commit; simpl.
  induction (transactions d) as [|x l IH]; [done|].
  rewrite (filter_cons (λ x, Transaction.transaction_id x ≠ txn_id)).
  destruct (decide (Transaction.transaction_id x ≠ txn_id)) as [Hx|Hx].
  - rewrite !filter_cons. destruct (decide _); [done|exact IH].
  - rewrite filter_cons. destruct (decide _) as [Heq|_]; [|exact IH].
    destruct Hx. congruence.
Qed.

Lemma get_transaction_None_filter d txn_id :
  get_transaction d txn_id = None →
  filter (λ x, Transaction.transaction_id x = txn_id) (transactions d) = [].
Proof.
  unfold get_transaction.
  destruct (filter _ (transactions d)); [done|discriminate].
Qed.

Lemma set_is_fraud_fresh l txn_id flag :
  filter (λ x, Transaction.transaction_id x = txn_id) l = [] →
  map (λ x, if decide (Transaction.transaction_id x = txn_id)
            then Transaction.with_is_fraud (Some flag) x else x) l = l.
Proof.
  induction l as [|x l IH]; [done|].
  rewrite filter_cons. destruct (decide _) as [|Hne]; [discriminate|].
  intros Hl. simpl. rewrite decide_False by done. by rewrite IH.
Qed.

(** ** The delete endpoint *)

(** C10.  [delete_transaction] checks no ownership: whenever the id is in
    the table the row is deleted and success is reported, whoever calls;
    afterwards the id is gone, the other rows are untouched, and a run that
    differs only in the caller gives the same result and the same state. *)
Theorem delete_transaction_no_ownership_check txn_id txn (u1 u2 : User.t) (st : State) :
  get_transaction (db st) txn_id = Some txn →
  delete_transaction txn_id u1 st
  = (inr "Transaction deleted", with_db (delete_commit txn_id (db st)) st)
  ∧ get_transaction (db (delete_transaction txn_id u1 st).2) txn_id = None
  ∧ (∀ other, other ≠ txn_id →
       get_transaction (db (delete_transaction txn_id u1 st).2) other
       = get_transaction (db st) other)
  ∧ delete_transaction txn_id u2 st = delete_transaction txn_id u1 st.
Proof.
  intros Hget. unfold delete_transaction. rewrite Hget. simpl.
  split; [done|]. split; [apply get_transaction_delete_commit|].
  split; [|done]. intros other Hne. by apply get_transaction_delete_commit_ne.
Qed.

(** ** Enrichment *)

Lemma get_ip_and_location_data_total net :
  ∃ r, get_ip_and_location_data net = inr r
       ∧ (lookup_fails net = true → r = fallback).
Proof.
  unfold get_ip_and_location_data.
  destruct net as [e|[e|] [e'|data]]; simpl.
  - destruct (is_request_exception e); eauto.
  - destruct (is_request_exception e); eauto.
  - destruct (is_request_exception e); eauto.
  - destruct (is_request_exception e'); eauto.
  - eexists; split; [done|discriminate].
Qed.

Lemma get_device_id_absent request :
  cookies request !! "device_id" = None →
  headers request !! "X-Device-ID" = None →
  get_device_id_from_request request = "unknown_device".
Proof. intros Hc Hh. unfold get_device_id_from_request. by rewrite Hc, Hh. Qed.

Lemma enrichment_total request net : ∃ d, calculate_derived_columns request net = inr d.
Proof.
  unfold calculate_derived_columns.
  destruct (get_ip_and_location_data_total net) as ([ip loc] & -> & _).
  simpl. eauto.
Qed.

(** C7.  Enrichment never raises: [calculate_derived_columns] returns a
    value for every request and every outcome of the geolocation lookup.
    When the lookup fails the value carries the sentinels 127.0.0.1,
    Unknown, Unknown and no coordinates; when the request has neither a
    device_id cookie nor an X-Device-ID header its device id is
    unknown_device. *)
Theorem enrichment_never_raises (request : Request) (net : HttpGet) :
  ∃ d, calculate_derived_columns request net = inr d
     ∧ (lookup_fails net = true →
          ip_address d = "127.0.0.1" ∧ country d = "Unknown" ∧ city d = "Unknown"
          ∧ latitude d = None ∧ longitude d = None)
     ∧ (cookies request !! "device_id" = None →
        headers request !! "X-Device-ID" = None →
          device_id d = "unknown_device").
Proof.
  unfold calculate_derived_columns.
  destruct (get_ip_and_location_data_total net) as ([ip loc] & -> & Hfail).
  simpl. eexists; split; [reflexivity|]. simpl. split.
  - intros Hf. specialize (Hfail Hf). unfold fallback in Hfail.
    by inversion Hfail.
  - apply get_device_id_absent.
Qed.

Lemma delete_transaction_no_ownership_check_witness :
  get_transaction (db st_paid) (uuid4 (w_noon 0 true))
  = Some (Transaction.with_is_fraud (Some false) candidate)
  ∧ delete_transaction (uuid4 (w_noon 0 true)) mallory st_paid
    = (inr "Transaction deleted", st0)
  ∧ delete_transaction (uuid4 (w_noon 0 true)) alice st_paid
    = delete_transaction (uuid4 (w_noon 0 true)) mallory st_paid.
Proof.
  assert (H : get_transaction (db st_paid) (uuid4 (w_noon 0 true))
              = Some (Transaction.with_is_fraud (Some false) candidate))
    by (vm_compute; reflexivity).
  destruct (delete_transaction_no_ownership_check _ _ mallory alice st_paid H)
    as (Hdel & _ & _ & Hsame).
  split; [exact H|]. split; [|exact Hsame].
  rewrite Hdel. vm_compute. reflexivity.
Defined.

Lemma enrichment_never_raises_witness :
  ∃ d, calculate_derived_columns request0 (GetRaises (RequestException "timeout")) = inr d
     ∧ ip_address d = "127.0.0.1" ∧ country d = "Unknown" ∧ city d = "Unknown"
     ∧ latitude d = None ∧ longitude d = None
     ∧ device_id d = "unknown_device".
Proof.
  destruct (enrichment_never_raises request0 (GetRaises (RequestException "timeout")))
    as (d & Hd & Hgeo & Hdev).
  exists d. split; [exact Hd|].
  destruct (Hgeo eq_refl) as (? & ? & ? & ? & ?).
  repeat (split; [assumption|]).
  apply Hdev; reflexivity.
Defined.

(** Case analysis on every test and match of an unfolded handler. *)
Ltac split_handler :=
  repeat match goal with
         | |- context [if ?b then _ else _] => destruct b
         | |- context [match ?x with _ => _ end] => destruct x
         end.

(** ** The step-up endpoint *)

Lemma send_otp_email_total w email otp : ∃ b, send_otp_email w email otp = inr b.
Proof.
  unfold send_otp_email, try_except.
  destruct (match SMTP_SERVER (settings w) with Some _ => _ | None => _ end); eauto.
Qed.

Lemma verify_success_iff w email otp td u st :
  (step_up_verify w "verify_otp" email otp td u st).1 = Some (IdentityVerified u)
  ↔ ∃ o, otp = Some o ∧ otp_store st !! email = Some (OtpStr o).
Proof.
  unfold step_up_verify. simpl.
  destruct (otp_store st !! email) as [v|] eqn:Hv; simpl.
  - destruct (otp_eq_str v otp) eqn:Heq; simpl.
    + split; [intros _|done].
      destruct v as [n|s], otp as [o|]; simpl in Heq; try discriminate.
      apply String.eqb_eq in Heq. subst. eauto.
    + split; [discriminate|]. intros (o & -> & Ho). inversion Ho; subst.
      simpl in Heq. by rewrite String.eqb_refl in Heq.
  - split; [discriminate|]. by intros (o & _ & ?).
Qed.

(** C9.  The step-up endpoint keys challenges by the [email] form field
    alone.  Two requests with the same form fields, served in the same
    world from the same state but for different authenticated users, leave
    the same state and answer with the same page, the echoed [user] entry
    apart; and the verify action succeeds exactly when the store maps the
    supplied email to the supplied code, whoever is logged in. *)
Theorem step_up_keyed_by_email_only (w : World) (action : string)
    (email otp transaction_data : option string) (u1 u2 : User.t) (st : State) :
  (step_up_verify w action email otp transaction_data u2 st).2
  = (step_up_verify w action email otp transaction_data u1 st).2
  ∧ (step_up_verify w action email otp transaction_data u2 st).1
    = with_user u2 <$> (step_up_verify w action email otp transaction_data u1 st).1
  ∧ ((step_up_verify w "verify_otp" email otp transaction_data u1 st).1
       = Some (IdentityVerified u1)
     ↔ ∃ o, otp = Some o ∧ otp_store st !! email = Some (OtpStr o))
  ∧ ((step_up_verify w "verify_otp" email otp transaction_data u2 st).1
       = Some (IdentityVerified u2)
     ↔ (step_up_verify w "verify_otp" email otp transaction_data u1 st).1
       = Some (IdentityVerified u1)).
Proof.
  split; [|split; [|split]].
  - unfold step_up_verify.
    split_handler; reflexivity.
  - unfold step_up_verify.
    split_handler; reflexivity.
  - apply verify_success_iff.
  - rewrite !verify_success_iff. reflexivity.
Qed.

(** ** The store holds one challenge per key *)

Lemma filter_none {A} (P : A → Prop) `{∀ x, Decision (P x)} (l : list A) :
  (∀ x, x ∈ l → ¬ P x) → filter P l = [].
Proof.
  induction l as [|a l IH]; [done|]. intros Hl.
  rewrite filter_cons. destruct (decide (P a)) as [Ha|_].
  - destruct (Hl a); [left|done].
  - apply IH. intros x Hx. apply Hl. by right.
Qed.

Lemma filter_key_NoDup {V} (l : list (option string * V)) k :
  NoDup l.*1 → (length (filter (λ kv, kv.1 = k) l) ≤ 1)%nat.
Proof.
  induction l as [|[k' v] l IH]; simpl; [lia|].
  intros Hnd. apply NoDup_cons in Hnd as [Hnotin Hnd].
  rewrite filter_cons. simpl. destruct (decide (k' = k)) as [->|]; [|by apply IH].
  assert (filter (λ kv : option string * V, kv.1 = k) l = []) as ->; [|simpl; lia].
  apply filter_none. intros [k2 v2] Hin Heq. simpl in Heq. subst.
  apply Hnotin. apply list_elem_of_fmap. by exists (k, v2).
Qed.

Lemma active_challenges_le (m : gmap (option string) otp_value) k :
  (active_challenges m k ≤ 1)%nat.
Proof. apply filter_key_NoDup, NoDup_fst_map_to_list. Qed.

Lemma active_challenges_Some (m : gmap (option string) otp_value) k v :
  m !! k = Some v → active_challenges m k = 1%nat.
Proof.
  intros Hk. pose proof (active_challenges_le m k) as Hle.
  assert ((k, v) ∈ filter (λ kv : option string * otp_value, kv.1 = k) (map_to_list m)) as Hin.
  { apply list_elem_of_filter. split; [done|]. by apply elem_of_map_to_list. }
  unfold active_challenges in *.
  destruct (filter _ (map_to_list m)); [by apply elem_of_nil in Hin|simpl in *; lia].
Qed.

Lemma active_challenges_None (m : gmap (option string) otp_value) k :
  m !! k = None → active_challenges m k = 0%nat.
Proof.
  intros Hk. unfold active_challenges.
  assert (filter (λ kv : option string * otp_value, kv.1 = k) (map_to_list m) = []) as ->; [|done].
  apply filter_none. intros [k' v] Hin Heq. simpl in Heq. subst.
  apply elem_of_map_to_list in Hin. congruence.
Qed.

Lemma issue_store w action email otp td u st :
  action = "send_otp" ∨ action = "resend_otp" →
  (step_up_verify w action email otp td u st).2
  = with_otp_store (<[email := OtpStr (pretty (randint w))]> (otp_store st)) st.
Proof.
  intros [-> | ->]; unfold step_up_verify; simpl;
    destruct (send_otp_email_total w email (pretty (randint w))) as [[] ->]; reflexivity.
Qed.

Lemma verify_mismatch w email o td u st v :
  otp_store st !! email = Some v → otp_eq_str v o = false →
  step_up_verify w "verify_otp" email o td u st = (Some (invalid_otp_page u email td), st).
Proof. intros Hv Hne. unfold step_up_verify. simpl. by rewrite Hv, Hne. Qed.

Lemma verify_absent w email o td u st :
  otp_store st !! email = None →
  step_up_verify w "verify_otp" email o td u st = (Some (invalid_otp_page u email td), st).
Proof. intros Hv. unfold step_up_verify. simpl. by rewrite Hv. Qed.

Lemma verify_match w email o td u st :
  otp_store st !! email = Some (OtpStr o) →
  step_up_verify w "verify_otp" email (Some o) td u st
  = (Some (IdentityVerified u), with_otp_store (delete email (otp_store st)) st).
Proof.
  intros Hv. unfold step_up_verify. simpl. rewrite Hv. simpl.
  by rewrite String.eqb_refl.
Qed.

Lemma otp_eq_str_false s o : o ≠ Some s → otp_eq_str (OtpStr s) o = false.
Proof.
  intros Hne. destruct o as [o|]; [|done]. simpl.
  apply String.eqb_neq. congruence.
Qed.

(** C5.  Issuing (send or resend) a code for a key overwrites whatever
    challenge the key had: afterwards the store holds exactly one challenge
    for the key, the newly drawn code; the other keys are untouched; and a
    verification with any code but the new one fails and changes nothing,
    so the superseded code is of no use any more (it verifies only if the
    draw repeated it, and then against the new challenge).  No operation of the endpoints (issue, resend,
    verify, for any action and either endpoint) ever leaves more than one
    challenge under a key. *)
Theorem issuing_supersedes (w : World) (action : string)
    (email otp td : option string) (u : User.t) (st : State) :
  action = "send_otp" ∨ action = "resend_otp" →
  let st1 := (step_up_verify w action email otp td u st).2 in
  otp_store st1 !! email = Some (OtpStr (pretty (randint w)))
  ∧ active_challenges (otp_store st1) email = 1%nat
  ∧ (∀ k, k ≠ email → otp_store st1 !! k = otp_store st !! k)
  ∧ (∀ w' o td' u', o ≠ Some (pretty (randint w)) →
       step_up_verify w' "verify_otp" email o td' u' st1
       = (Some (invalid_otp_page u' email td'), st1))
  ∧ (∀ w' action' email' o td' u' k,
       (active_challenges
          (otp_store (step_up_verify w' action' email' o td' u' st1).2) k ≤ 1)%nat)
  ∧ (∀ w' request amount ty pm rcpt u' k,
       (active_challenges
          (otp_store (create_and_predict_transaction w' request amount ty pm rcpt u' st1).2)
          k ≤ 1)%nat)
  ∧ (∀ code u' k,
       (active_challenges (otp_store (verify_otp code u' st1).2) k ≤ 1)%nat).
Proof.
  intros Hact. simpl. rewrite (issue_store _ _ _ _ _ _ _ Hact). simpl.
  assert (Hnew : <[email := OtpStr (pretty (randint w))]> (otp_store st) !! email
                 = Some (OtpStr (pretty (randint w)))) by apply lookup_insert_eq.
  split; [exact Hnew|]. split; [by eapply active_challenges_Some|].
  split; [intros k Hk; by apply lookup_insert_ne|].
  split.
  - intros w' o td' u' Hne.
    apply (verify_mismatch w' email o td' u' (with_otp_store _ st) _ Hnew).
    by apply otp_eq_str_false.
  - repeat split; intros; apply active_challenges_le.
Qed.

Lemma issuing_supersedes_witness :
  let w1 := world 1 (clock 12 0) 123456 true in
  let w2 := world 1 (clock 12 1) 654321 true in
  let st1 := (step_up_verify w1 "send_otp" (Some "alice@example.com") None None alice st0).2 in
  let st2 := (step_up_verify w2 "resend_otp" (Some "alice@example.com") None None alice st1).2 in
  otp_store st1 !! Some "alice@example.com" = Some (OtpStr "123456")
  ∧ otp_store st2 !! Some "alice@example.com" = Some (OtpStr "654321")
  ∧ active_challenges (otp_store st2) (Some "alice@example.com") = 1%nat
  ∧ step_up_verify w2 "verify_otp" (Some "alice@example.com") (Some "123456") None alice st2
    = (Some (invalid_otp_page alice (Some "alice@example.com") None), st2).
Proof.
  intros w1 w2 st1 st2.
  destruct (issuing_supersedes w2 "resend_otp" (Some "alice@example.com") None None
              alice st1 (or_intror eq_refl)) as (Hnew & Hone & _ & Hold & _).
  split; [vm_compute; reflexivity|].
  split; [exact Hnew|]. split; [exact Hone|].
  apply Hold. vm_compute. discriminate.
Defined.

(** ** One-time use *)

Lemma verify_success_state w email otp td u st :
  (step_up_verify w "verify_otp" email otp td u st).1 = Some (IdentityVerified u) →
  (step_up_verify w "verify_otp" email otp td u st).2
  = with_otp_store (delete email (otp_store st)) st.
Proof.
  intros Hok. apply verify_success_iff in Hok as (o & -> & Ho).
  by rewrite (verify_match _ _ _ _ _ _ Ho).
Qed.

Lemma legacy_verify_success code u st msg :
  (verify_otp code u st).1 = inr msg →
  ∃ profile, query_profile (db st) (User.user_id u) = Some profile
    ∧ (verify_otp code u st).2
      = with_otp_store (delete (Some (Profile.upi_id profile)) (otp_store st)) st.
Proof.
  unfold verify_otp.
  destruct (query_profile (db st) (User.user_id u)) as [profile|]; [|discriminate].
  destruct (otp_store st !! Some (Profile.upi_id profile)) as [v|]; [|discriminate].
  destruct (negb (otp_truthy v) || negb (otp_eq_int v code)); [discriminate|].
  intros _. by exists profile.
Qed.

(** C6.  A code verifies at most once.  After the step-up endpoint has
    accepted a code, the key is absent from the store, a second verification
    with the same code gets the invalid-code page and changes nothing, and
    so does a verification with any other code.  The legacy endpoint
    behaves alike: after it has accepted a code, the same code is rejected
    with status 400. *)
Theorem verified_code_cannot_be_replayed (w1 w2 : World)
    (email otp td1 td2 : option string) (u1 u2 u : User.t) (code : Z) (st : State) :
  ((step_up_verify w1 "verify_otp" email otp td1 u1 st).1 = Some (IdentityVerified u1) →
   let st1 := (step_up_verify w1 "verify_otp" email otp td1 u1 st).2 in
   otp_store st1 !! email = None
   ∧ active_challenges (otp_store st1) email = 0%nat
   ∧ step_up_verify w2 "verify_otp" email otp td2 u2 st1
     = (Some (invalid_otp_page u2 email td2), st1)
   ∧ ∀ otp', (step_up_verify w2 "verify_otp" email otp' td2 u2 st1).1
             ≠ Some (IdentityVerified u2))
  ∧ (∀ msg, (verify_otp code u st).1 = inr msg →
     let st1 := (verify_otp code u st).2 in
     verify_otp code u st1 = (inl (HTTPException 400 "Invalid or expired OTP"), st1)).
Proof.
  split.
  - intros Hok. simpl. rewrite (verify_success_state _ _ _ _ _ _ Hok).
    assert (Hgone : otp_store (with_otp_store (delete email (otp_store st)) st) !! email = None)
      by apply lookup_delete_eq.
    split; [exact Hgone|]. split; [by apply active_challenges_None|].
    split; [by apply verify_absent|].
    intros otp'. by rewrite (verify_absent _ _ _ _ _ _ Hgone).
  - intros msg Hok. simpl.
    destruct (legacy_verify_success _ _ _ _ Hok) as (profile & Hp & ->).
    unfold verify_otp at 1. simpl. rewrite Hp. by rewrite lookup_delete_eq.
Qed.

Lemma verified_code_cannot_be_replayed_witness :
  let w := world 1 (clock 12 0) 123456 true in
  let email := Some "alice@example.com" in
  let st1 := (step_up_verify w "send_otp" email None None alice st0).2 in
  let st2 := (step_up_verify w "verify_otp" email (Some "123456") None alice st1).2 in
  let st3 := (create_and_predict_transaction w request0 250%float "transfer" "upi"
                "bob@upi" alice st0).2 in
  (step_up_verify w "verify_otp" email (Some "123456") None alice st1).1
  = Some (IdentityVerified alice)
  ∧ step_up_verify w "verify_otp" email (Some "123456") None mallory st2
    = (Some (invalid_otp_page mallory email None), st2)
  ∧ (verify_otp 123456 alice st3).1 = inr "OTP verified successfully. Transaction approved."
  ∧ (verify_otp 123456 alice (verify_otp 123456 alice st3).2).1
    = inl (HTTPException 400 "Invalid or expired OTP").
Proof.
  intros w email st1 st2 st3.
  assert (H1 : (step_up_verify w "verify_otp" email (Some "123456") None alice st1).1
               = Some (IdentityVerified alice)) by (vm_compute; reflexivity).
  assert (H2 : (verify_otp 123456 alice st3).1
               = inr "OTP verified successfully. Transaction approved.")
    by (vm_compute; reflexivity).
  destruct (verified_code_cannot_be_replayed w w email (Some "123456") None None
              alice mallory alice 123456 st1) as [Hstep _].
  destruct (verified_code_cannot_be_replayed w w email (Some "123456") None None
              alice mallory alice 123456 st3) as [_ Hlegacy].
  destruct (Hstep H1) as (_ & _ & Hreplay & _).
  split; [exact H1|]. split; [exact Hreplay|]. split; [exact H2|].
  by rewrite (Hlegacy _ H2).
Defined.

(** ** No expiry, no attempt bound *)

Lemma legacy_verify_match code (u : User.t) profile st :
  query_profile (db st) (User.user_id u) = Some profile →
  otp_store st !! Some (Profile.upi_id profile) = Some (OtpInt code) →
  code ≠ 0 →
  verify_otp code u st
  = (inr "OTP verified successfully. Transaction approved.",
     with_otp_store (delete (Some (Profile.upi_id profile)) (otp_store st)) st).
Proof.
  intros Hp Hv Hnz. unfold verify_otp. rewrite Hp, Hv. simpl.
  rewrite Z.eqb_refl. by destruct (Z.eqb_spec code 0).
Qed.

(** The extent of the missing expiry.  The store keeps no issuance or
    expiry time and no handler reads the clock when verifying: whatever the
    clocks of the issuing and the verifying request read, verifying the
    issued code is accepted and purges the entry, and a different code gets
    the invalid-code page and leaves the entry in place.  The legacy
    endpoint accepts the stored code the same way; it reads no clock at
    all. *)
Theorem verification_ignores_the_clock (w1 w2 : World)
    (email td1 td2 : option string) (u1 u2 u : User.t) (st st' : State)
    (profile : Profile.t) (code : Z) :
  let st1 := (step_up_verify w1 "send_otp" email None td1 u1 st).2 in
  step_up_verify w2 "verify_otp" email (Some (pretty (randint w1))) td2 u2 st1
  = (Some (IdentityVerified u2), with_otp_store (delete email (otp_store st1)) st1)
  ∧ (∀ o, o ≠ Some (pretty (randint w1)) →
       step_up_verify w2 "verify_otp" email o td2 u2 st1
       = (Some (invalid_otp_page u2 email td2), st1))
  ∧ (query_profile (db st') (User.user_id u) = Some profile →
     otp_store st' !! Some (Profile.upi_id profile) = Some (OtpInt code) →
     code ≠ 0 →
     verify_otp code u st'
     = (inr "OTP verified successfully. Transaction approved.",
        with_otp_store (delete (Some (Profile.upi_id profile)) (otp_store st')) st')).
Proof.
  simpl. rewrite (issue_store w1 "send_otp" email None td1 u1 st (or_introl eq_refl)).
  assert (Hnew : otp_store (with_otp_store
                   (<[email := OtpStr (pretty (randint w1))]> (otp_store st)) st) !! email
                 = Some (OtpStr (pretty (randint w1)))) by apply lookup_insert_eq.
  split; [by apply verify_match|]. split.
  - intros o Hne. apply (verify_mismatch _ _ _ _ _ _ _ Hnew). by apply otp_eq_str_false.
  - apply legacy_verify_match.
Qed.

Lemma verification_ignores_the_clock_witness :
  let w1 := world 1 (clock 12 0) 123456 true in
  let w2 := world 1 (clock 12 11) 111111 true in
  let email := Some "alice@example.com" in
  let st1 := (step_up_verify w1 "send_otp" email None None alice st0).2 in
  let st3 := (create_and_predict_transaction w1 request0 250%float "transfer" "upi"
                "bob@upi" alice st0).2 in
  instant (now w2) > instant (now w1) + otp_validity
  ∧ (step_up_verify w2 "verify_otp" email (Some "123456") None alice st1).1
    = Some (IdentityVerified alice)
  ∧ step_up_verify w2 "verify_otp" email (Some "000000") None alice st1
    = (Some (invalid_otp_page alice email None), st1)
  ∧ (verify_otp 123456 alice st3).1
    = inr "OTP verified successfully. Transaction approved.".
Proof.
  intros w1 w2 email st1 st3.
  destruct (verification_ignores_the_clock w1 w2 email None None alice alice alice
              st0 st3 alice_profile 123456) as (Hok & Hbad & Hlegacy).
  split; [vm_compute; reflexivity|].
  split; [exact (f_equal fst Hok)|].
  split; [apply Hbad; vm_compute; discriminate|].
  rewrite Hlegacy; [reflexivity|vm_compute; reflexivity|vm_compute; reflexivity|lia].
Defined.

(** C2, at the failing input.  Both mails tell the user that the code is
    valid for ten minutes and the legacy refusal reads "Invalid or expired
    OTP", yet no expiry is recorded or checked.  A code issued at 12:00 and
    supplied at 12:11, after that window, is not answered as expired: the
    step-up endpoint accepts it and purges the entry as for any success,
    and the legacy endpoint, which reads no clock, accepts its code as
    well. *)
Theorem code_is_accepted_after_its_window :
  let w1 := world 1 (clock 12 0) 123456 true in
  let w2 := world 1 (clock 12 11) 111111 true in
  let email := Some "alice@example.com" in
  let st1 := (step_up_verify w1 "send_otp" email None None alice st0).2 in
  let st3 := (create_and_predict_transaction w1 request0 250%float "transfer" "upi"
                "bob@upi" alice st0).2 in
  otp_store st1 !! email = Some (OtpStr "123456")
  ∧ instant (now w2) > instant (now w1) + otp_validity
  ∧ step_up_verify w2 "verify_otp" email (Some "123456") None alice st1
    = (Some (IdentityVerified alice), st0)
  ∧ otp_store st3 !! Some "alice@upi" = Some (OtpInt 123456)
  ∧ (verify_otp 123456 alice st3).1
    = inr "OTP verified successfully. Transaction approved.".
Proof. vm_compute. repeat split; reflexivity. Qed.

Lemma verify_attempts_wrong w email guesses td u st code :
  otp_store st !! email = Some (OtpStr code) →
  Forall (λ g, g ≠ Some code) guesses →
  verify_attempts w email guesses td u st
  = (map (λ _, Some (invalid_otp_page u email td)) guesses, st).
Proof.
  intros Hv. induction 1 as [|g guesses Hg _ IH]; [done|].
  cbn [verify_attempts].
  rewrite (verify_mismatch _ _ _ _ _ _ _ Hv (otp_eq_str_false _ _ Hg)).
  by rewrite IH.
Qed.

(** C3, as the code has it.  The store keeps no attempt counter and the
    endpoint has no bound.  Each verification with a mismatching code gets
    the invalid-code page and leaves the store as it was; after any number
    of such attempts the challenge is still there and a verification with
    the stored code is accepted. *)
Theorem wrong_guesses_change_nothing (w : World) (email td : option string)
    (guesses : list (option string)) (u : User.t) (st : State) (code : string) :
  otp_store st !! email = Some (OtpStr code) →
  Forall (λ g, g ≠ Some code) guesses →
  let after := verify_attempts w email guesses td u st in
  after.1 = map (λ _, Some (invalid_otp_page u email td)) guesses
  ∧ after.2 = st
  ∧ step_up_verify w "verify_otp" email (Some code) td u after.2
    = (Some (IdentityVerified u), with_otp_store (delete email (otp_store st)) st).
Proof.
  intros Hv Hwrong. simpl.
  rewrite (verify_attempts_wrong _ _ _ _ _ _ _ Hv Hwrong). simpl.
  split; [done|]. split; [done|]. by apply verify_match.
Qed.

Lemma wrong_guesses_change_nothing_witness :
  let w := world 1 (clock 12 0) 123456 true in
  let email := Some "alice@example.com" in
  let st1 := (step_up_verify w "send_otp" email None None alice st0).2 in
  let after := verify_attempts w email (replicate 6 (Some "000000")) None alice st1 in
  after.1 = replicate 6 (Some (invalid_otp_page alice email None))
  ∧ after.2 = st1
  ∧ (step_up_verify w "verify_otp" email (Some "123456") None alice after.2).1
    = Some (IdentityVerified alice).
Proof.
  intros w email st1 after.
  assert (Hv : otp_store st1 !! email = Some (OtpStr "123456")) by (vm_compute; reflexivity).
  assert (Hwrong : Forall (λ g, g ≠ Some "123456") (replicate 6 (Some "000000"))).
  { apply Forall_replicate. discriminate. }
  destruct (wrong_guesses_change_nothing w email None _ alice st1 "123456" Hv Hwrong)
    as (Hpages & Hsame & Hok).
  split; [exact Hpages|]. split; [exact Hsame|]. exact (f_equal fst Hok).
Defined.

(** C3 as stated fails: after six wrong guesses, more than the bound of
    five, the challenge has not been invalidated and the right code is
    still accepted. *)
Lemma six_wrong_guesses_then_accepted :
  let w := world 1 (clock 12 0) 123456 true in
  let email := Some "alice@example.com" in
  let st1 := (step_up_verify w "send_otp" email None None alice st0).2 in
  let wrong := replicate 6 (Some "000000") in
  let after := verify_attempts w email wrong None alice st1 in
  ¬ (Forall (λ g, g ≠ Some "123456") wrong → (5 < length wrong)%nat →
     (step_up_verify w "verify_otp" email (Some "123456") None alice after.2).1
     ≠ Some (IdentityVerified alice)).
Proof.
  intros w email st1 wrong after Hclaim.
  apply Hclaim.
  - apply Forall_replicate. discriminate.
  - vm_compute. lia.
  - vm_compute. reflexivity.
Qed.

(** ** Submission *)

Lemma add_commit_fresh x d :
  get_transaction d (Transaction.transaction_id x) = None →
  add_commit x d = inr (with_transactions (transactions d ++ [x])%list d).
Proof. intros Hfresh. unfold add_commit. by rewrite Hfresh. Qed.

Lemma set_is_fraud_commit_appended d x flag :
  get_transaction d (Transaction.transaction_id x) = None →
  set_is_fraud_commit (Transaction.transaction_id x) flag
    (with_transactions (transactions d ++ [x])%list d)
  = with_transactions
      (transactions d ++ [Transaction.with_is_fraud (Some flag) x])%list d.
Proof.
  intros Hfresh. unfold set_is_fraud_commit, with_transactions. simpl.
  rewrite map_app. simpl. rewrite decide_True by done.
  by rewrite (set_is_fraud_fresh _ _ _ (get_transaction_None_filter _ _ Hfresh)).
Qed.

(** What the legacy submission does once the profile is found, the
    identifier is unused and the scorer has answered. *)
Lemma create_and_predict_scored w request amount ty pm rcpt (u : User.t) st profile d r :
  query_profile (db st) (User.user_id u) = Some profile →
  calculate_derived_columns request (http_get w) = inr d →
  get_transaction (db st) (uuid4 w) = None →
  let cand := new_transaction w u amount ty pm rcpt profile d in
  let db1 := with_transactions (transactions (db st) ++ [cand])%list (db st) in
  run_fraud_pipeline w cand profile (count_transactions db1 (User.user_id u))
    (last_location (db st) (User.user_id u)) db1 = inr r →
  let flag := negb (final_prediction r =? 0) in
  let db2 := with_transactions
               (transactions (db st) ++ [Transaction.with_is_fraud (Some flag) cand])%list
               (db st) in
  create_and_predict_transaction w request amount ty pm rcpt u st
  = if flag
    then (let* _ := send_legacy_mail w profile (randint w) in
          ret (Detail "Fraud detected. OTP sent to registered email."),
          {| db := db2;
             otp_store := <[Some (Profile.upi_id profile) := OtpInt (randint w)]>
                            (otp_store st) |})
    else (inr (Prediction r), with_db db2 st).
Proof.
  intros Hp Hd Hfresh cand db1 Hr flag db2.
  unfold create_and_predict_transaction. rewrite Hp, Hd.
  fold cand. rewrite (add_commit_fresh cand (db st) Hfresh).
  fold db1. rewrite Hr. fold flag.
  change (uuid4 w) with (Transaction.transaction_id cand).
  unfold db1. rewrite (set_is_fraud_commit_appended (db st) cand flag Hfresh).
  fold db2. reflexivity.
Qed.

(** What [process_transaction] does once the profile is found and the
    scorer has answered. *)
Lemma process_scored w request amount ty pm rcpt (u : User.t) st profile d r :
  query_profile (db st) (User.user_id u) = Some profile →
  calculate_derived_columns request (http_get w) = inr d →
  let cand := new_transaction w u amount ty pm rcpt profile d in
  let n := count_transactions (db st) (User.user_id u) in
  let loc := last_location (db st) (User.user_id u) in
  run_fraud_pipeline w cand profile n loc (db st) = inr r →
  let td := {| td_transaction_id := uuid4 w; td_amount := amount;
               td_transaction_type := ty; td_payment_method := pm;
               td_to_account := rcpt; td_timestamp := strftime (now w);
               td_from_account := Profile.upi_id profile |} in
  process_body w request amount ty pm rcpt u st
  = if final_prediction r =? 1
    then inr (StepUpChallenge u r
                {| tj_transaction_data := td;
                   tj_temp_txn_data :=
                     {| tmp_amount := amount; tmp_transaction_type := ty;
                        tmp_payment_method := pm; tmp_recipient_upi_id := rcpt;
                        tmp_derived_data := d; tmp_txn_count := n;
                        tmp_last_transaction_location := loc |} |}
                (User.email <$> query_user (db st) (User.user_id u)), st)
    else let* db1 := add_commit (Transaction.with_is_fraud (Some false) cand) (db st) in
         ret (TransactionResults u td r, with_db db1 st).
Proof.
  intros Hp Hd cand n loc Hr td.
  unfold process_body. rewrite Hp, Hd. simpl.
  fold cand n loc. rewrite Hr. simpl. reflexivity.
Qed.

(** C4.  A valid submission (the profile exists, the drawn identifier is
    unused) that the scorer judges not fraudulent persists exactly one
    Transaction, through either endpoint: the table afterwards is the table
    before with the candidate appended.  That row has fraud flag false, the
    submitted amount, the profile's handle as payer and the submitted
    recipient as beneficiary; [process_transaction] returns the same amount
    and parties in its transaction data. *)
Theorem not_fraud_persists_one (w : World) (request : Request) (amount : float)
    (ty pm rcpt : string) (u : User.t) (st : State) (profile : Profile.t) :
  query_profile (db st) (User.user_id u) = Some profile →
  get_transaction (db st) (uuid4 w) = None →
  ∃ d,
    calculate_derived_columns request (http_get w) = inr d
    ∧ let uid := User.user_id u in
      let cand := new_transaction w u amount ty pm rcpt profile d in
      let row := Transaction.with_is_fraud (Some false) cand in
      let scored := with_transactions (transactions (db st) ++ [cand])%list (db st) in
      let persisted :=
        with_db (with_transactions (transactions (db st) ++ [row])%list (db st)) st in
      Transaction.is_fraud row = Some false
      ∧ Transaction.amount row = amount
      ∧ Transaction.payer_vpa row = Profile.upi_id profile
      ∧ Transaction.beneficiary_vpa row = rcpt
      ∧ (∀ r, run_fraud_pipeline w cand profile (count_transactions (db st) uid)
                (last_location (db st) uid) (db st) = inr r →
              final_prediction r = 0 →
              ∃ td, process_transaction w request amount ty pm rcpt u st
                    = (inr (TransactionResults u td r), persisted)
                    ∧ td_amount td = amount ∧ td_to_account td = rcpt
                    ∧ td_from_account td = Profile.upi_id profile)
      ∧ (∀ r, run_fraud_pipeline w cand profile (count_transactions scored uid)
                (last_location (db st) uid) scored = inr r →
              final_prediction r = 0 →
              create_and_predict_transaction w request amount ty pm rcpt u st
              = (inr (Prediction r), persisted)).
Proof.
  intros Hp Hfresh.
  destruct (enrichment_total request (http_get w)) as [d Hd].
  exists d. split; [exact Hd|]. simpl. do 4 (split; [reflexivity|]). split.
  - intros r Hr H0. eexists. unfold process_transaction.
    rewrite (process_scored _ _ _ _ _ _ _ _ _ _ _ Hp Hd Hr), H0. simpl.
    rewrite add_commit_fresh by exact Hfresh. simpl. done.
  - intros r Hr H0.
    rewrite (create_and_predict_scored _ _ _ _ _ _ _ _ _ _ _ Hp Hd Hfresh Hr), H0.
    reflexivity.
Qed.

Lemma not_fraud_persists_one_witness :
  let w := w_noon 0 true in
  let r := {| final_prediction := 0; report := "scored" |} in
  query_profile (db st0) (User.user_id alice) = Some alice_profile
  ∧ get_transaction (db st0) (uuid4 w) = None
  ∧ (∃ td, process_transaction w request0 250%float "transfer" "upi" "bob@upi" alice st0
           = (inr (TransactionResults alice td r), st_paid))
  ∧ create_and_predict_transaction w request0 250%float "transfer" "upi" "bob@upi" alice st0
    = (inr (Prediction r), st_paid).
Proof.
  intros w r.
  assert (Hp : query_profile (db st0) (User.user_id alice) = Some alice_profile)
    by (vm_compute; reflexivity).
  assert (Hfresh : get_transaction (db st0) (uuid4 w) = None) by (vm_compute; reflexivity).
  destruct (not_fraud_persists_one w request0 250%float "transfer" "upi" "bob@upi"
              alice st0 alice_profile Hp Hfresh)
    as (d & Hd & _ & _ & _ & _ & Hproc & Hlegacy).
  assert (d = derived0) as ->.
  { change (calculate_derived_columns request0 (http_get w)) with (@inr exn _ derived0) in Hd.
    by injection Hd. }
  destruct (Hproc r eq_refl eq_refl) as (td & Hproc' & _).
  split; [exact Hp|]. split; [exact Hfresh|]. split.
  - exists td. exact Hproc'.
  - exact (Hlegacy r eq_refl eq_refl).
Defined.

(** C1, as the code has it.  For a submission with an existing profile
    that the scorer judges fraudulent: [process_transaction] (prediction 1)
    persists nothing, leaves the state as it was and answers with the
    step-up page that carries the verdict and the candidate payload
    (inputs, derived data, history count, last location).  The legacy
    endpoint (any non-zero prediction), when the drawn identifier is
    unused, persists the candidate at submission, before any verification
    and whatever the mail does: the table is the table before with the
    scored candidate appended, its fraud flag set to true; the code is
    stored under the payer's handle; and the legacy verification does not
    touch the table. *)
Theorem fraud_submission_paths (w : World) (request : Request) (amount : float)
    (ty pm rcpt : string) (u : User.t) (st : State) (profile : Profile.t) :
  query_profile (db st) (User.user_id u) = Some profile →
  ∃ d,
    calculate_derived_columns request (http_get w) = inr d
    ∧ let uid := User.user_id u in
      let cand := new_transaction w u amount ty pm rcpt profile d in
      let scored := with_transactions (transactions (db st) ++ [cand])%list (db st) in
      (∀ r, run_fraud_pipeline w cand profile (count_transactions (db st) uid)
              (last_location (db st) uid) (db st) = inr r →
            final_prediction r = 1 →
            ∃ td,
              process_transaction w request amount ty pm rcpt u st
              = (inr (StepUpChallenge u r
                        {| tj_transaction_data := td;
                           tj_temp_txn_data :=
                             {| tmp_amount := amount; tmp_transaction_type := ty;
                                tmp_payment_method := pm; tmp_recipient_upi_id := rcpt;
                                tmp_derived_data := d;
                                tmp_txn_count := count_transactions (db st) uid;
                                tmp_last_transaction_location :=
                                  last_location (db st) uid |} |}
                        (User.email <$> query_user (db st) uid)), st))
      ∧ (∀ r, run_fraud_pipeline w cand profile (count_transactions scored uid)
                (last_location (db st) uid) scored = inr r →
              final_prediction r ≠ 0 →
              get_transaction (db st) (uuid4 w) = None →
              let after :=
                (create_and_predict_transaction w request amount ty pm rcpt u st).2 in
              transactions (db after)
              = (transactions (db st) ++ [Transaction.with_is_fraud (Some true) cand])%list
              ∧ otp_store after
                = <[Some (Profile.upi_id profile) := OtpInt (randint w)]> (otp_store st)
              ∧ ∀ code u', db (verify_otp code u' after).2 = db after).
Proof.
  intros Hp.
  destruct (enrichment_total request (http_get w)) as [d Hd].
  exists d. split; [exact Hd|]. simpl. split.
  - intros r Hr H1. eexists. unfold process_transaction.
    rewrite (process_scored _ _ _ _ _ _ _ _ _ _ _ Hp Hd Hr), H1. simpl. reflexivity.
  - intros r Hr Hnz Hfresh.
    rewrite (create_and_predict_scored _ _ _ _ _ _ _ _ _ _ _ Hp Hd Hfresh Hr).
    destruct (Z.eqb_spec (final_prediction r) 0) as [|_]; [contradiction|].
    simpl. split; [reflexivity|]. split; [reflexivity|].
    intros code u'. unfold verify_otp. split_handler; reflexivity.
Qed.

Lemma fraud_submission_paths_witness :
  let w := w_noon 1 true in
  let r := {| final_prediction := 1; report := "scored" |} in
  let after := (create_and_predict_transaction w request0 250%float "transfer" "upi"
                  "bob@upi" alice st0).2 in
  query_profile (db st0) (User.user_id alice) = Some alice_profile
  ∧ (∃ json, process_transaction w request0 250%float "transfer" "upi" "bob@upi" alice st0
             = (inr (StepUpChallenge alice r json (Some "alice@example.com")), st0))
  ∧ transactions (db after) = [Transaction.with_is_fraud (Some true) candidate]
  ∧ otp_store after = {[ Some "alice@upi" := OtpInt 123456 ]}.
Proof.
  intros w r after.
  assert (Hp : query_profile (db st0) (User.user_id alice) = Some alice_profile)
    by (vm_compute; reflexivity).
  destruct (fraud_submission_paths w request0 250%float "transfer" "upi" "bob@upi"
              alice st0 alice_profile Hp)
    as (d & Hd & Hproc & Hlegacy).
  assert (d = derived0) as ->.
  { change (calculate_derived_columns request0 (http_get w)) with (@inr exn _ derived0) in Hd.
    by injection Hd. }
  destruct (Hproc r eq_refl eq_refl) as (td & Hproc').
  assert (Hnz : final_prediction r ≠ 0) by (simpl; lia).
  destruct (Hlegacy r eq_refl Hnz eq_refl) as (Htxns & Hotp & _).
  split; [exact Hp|]. split; [eexists; exact Hproc'|].
  split; [exact Htxns|exact Hotp].
Defined.

(** C1 as stated fails: the legacy endpoint has persisted the Transaction
    when the submission returns, while the code is still unverified in the
    store. *)
Lemma fraud_is_persisted_before_verification :
  let w := w_noon 1 true in
  let after := (create_and_predict_transaction w request0 250%float "transfer" "upi"
                  "bob@upi" alice st0).2 in
  ¬ (otp_store after !! Some "alice@upi" = Some (OtpInt 123456) →
     transactions (db after) = transactions (db st0)).
Proof.
  intros w after Hclaim.
  assert (Hsame : transactions (db after) = transactions (db st0))
    by (apply Hclaim; vm_compute; reflexivity).
  vm_compute in Hsame. discriminate.
Qed.

(** ** Mail failures *)

(** C8, at the failing input.  With the mail server unreachable, the legacy
    submission of a transfer judged fraudulent raises the mail error to its
    caller: no response is built and nothing tells the caller to resend,
    although the Transaction and the code have been stored.  The step-up
    endpoint, which sends through [send_otp_email], answers the same outage
    with the page that reports the failure. *)
Theorem legacy_mail_failure_propagates :
  let w := w_noon 1 false in
  let r := create_and_predict_transaction w request0 250%float "transfer" "upi"
             "bob@upi" alice st0 in
  r.1 = inl (SMTPException "connection refused")
  ∧ otp_store r.2 !! Some "alice@upi" = Some (OtpInt 123456)
  ∧ transactions (db r.2) = [Transaction.with_is_fraud (Some true) candidate]
  ∧ (step_up_verify w "send_otp" (Some "alice@example.com") None None alice st0).1
    = Some (StepUp alice false (Some "alice@example.com") None None
              (Some "Failed to send OTP. Please try again.")).
Proof. vm_compute. repeat split; reflexivity. Qed.

(** * Further properties of the handlers *)

(** ** Queries *)

Lemma latest_from (b : Transaction.t) (l : list Transaction.t) :
  ∃ x, foldl newer (Some b) l = Some x
       ∧ (x = b ∨ x ∈ l)
       ∧ instant (Transaction.created_at b) ≤ instant (Transaction.created_at x)
       ∧ ∀ y, y ∈ l → instant (Transaction.created_at y) ≤ instant (Transaction.created_at x).
Proof.
  revert b. induction l as [|a l IH]; intros b; simpl.
  - exists b. split; [done|]. split; [by left|]. split; [lia|]. by intros y Hy%elem_of_nil.
  - destruct (Z.ltb_spec (instant (Transaction.created_at b))
                (instant (Transaction.created_at a))) as [Hlt|Hge].
    + destruct (IH a) as (x & Hx & Hin & Hle & Hall). exists x.
      split; [exact Hx|]. split.
      { right. destruct Hin as [->|Hin]; [left|by right]. }
      split; [lia|]. intros y [->|Hy]%elem_of_cons; [exact Hle|by apply Hall].
    + destruct (IH b) as (x & Hx & Hin & Hle & Hall). exists x.
      split; [exact Hx|]. split.
      { destruct Hin as [->|Hin]; [by left|right; by right]. }
      split; [exact Hle|]. intros y [->|Hy]%elem_of_cons; [lia|by apply Hall].
Qed.

(** X17.  The ordered query picks a newest row: [latest] answers [None]
    exactly on the empty list, and otherwise a member of the list whose
    [created_at] no other member exceeds. *)
Theorem latest_is_newest (l : list Transaction.t) :
  (latest l = None ↔ l = [])
  ∧ ∀ x, latest l = Some x →
      x ∈ l
      ∧ ∀ y, y ∈ l →
          instant (Transaction.created_at y) ≤ instant (Transaction.created_at x).
Proof.
  unfold latest. change (λ acc x, _) with newer.
  destruct l as [|a l]; simpl.
  - split; [done|]. discriminate.
  - destruct (latest_from a l) as (x & Hx & Hin & Hle & Hall). rewrite Hx.
    split; [split; discriminate|].
    intros x' [= <-]. split.
    + destruct Hin as [->|Hin]; [left|by right].
    + intros y [->|Hy]%elem_of_cons; [exact Hle|by apply Hall].
Qed.

Lemma latest_is_newest_witness :
  ∃ x, latest (user_transactions (db st_paid) 1) = Some x
       ∧ x ∈ user_transactions (db st_paid) 1
       ∧ Transaction.transaction_id x = uuid4 (w_noon 0 true).
Proof.
  destruct (latest_is_newest (user_transactions (db st_paid) 1)) as [_ Hnewest].
  eexists. split; [reflexivity|].
  split; [apply (Hnewest _ eq_refl)|reflexivity].
Defined.


(** X16.  The last location handed to the scorer exists exactly when the
    user's newest transaction has both coordinates and neither is zero: a
    stored latitude or longitude of 0.0 counts as missing. *)
Theorem last_location_needs_nonzero_coordinates (d : DB) (uid : Z) (loc : Location) :
  last_location d uid = Some loc
  ↔ ∃ x, latest (user_transactions d uid) = Some x
       ∧ Transaction.latitude x = Some (loc_lat loc)
       ∧ Transaction.longitude x = Some (loc_lon loc)
       ∧ PrimFloat.eqb (loc_lat loc) 0 = false
       ∧ PrimFloat.eqb (loc_lon loc) 0 = false.
Proof.
  unfold last_location.
  destruct (latest (user_transactions d uid)) as [x|]; [|split; [done|by intros (? & ? & _)]].
  destruct (Transaction.latitude x) as [la|] eqn:Hla,
           (Transaction.longitude x) as [lo|] eqn:Hlo; simpl;
    try (split; [try done; by destruct (negb _)|intros (? & [= <-] & ? & ? & _); congruence]).
  destruct (PrimFloat.eqb la 0) eqn:Ela, (PrimFloat.eqb lo 0) eqn:Elo; simpl.
  all: split; [intros [= <-]; simpl; try done; eauto 10
              |intros (? & [= <-] & [= Ha] & [= Ho] & Hza & Hzo); subst; try congruence].
  all: destruct loc; simpl in *; congruence.
Qed.

Lemma last_location_needs_nonzero_coordinates_witness :
  last_location (db st_located) 1 = Some {| loc_lat := 19%float; loc_lon := 72.5%float |}
  ∧ last_location (db st_paid) 1 = None.
Proof.
  split.
  - apply last_location_needs_nonzero_coordinates.
    eexists. split; [reflexivity|]. repeat split; reflexivity.
  - destruct (last_location (db st_paid) 1) as [loc|] eqn:Hloc; [|reflexivity].
    apply last_location_needs_nonzero_coordinates in Hloc as (x & Hx & Hlat & _).
    vm_compute in Hx. injection Hx as <-. discriminate Hlat.
Defined.


(** X15.  The dashboard lists the caller's own transactions and nothing
    else: without a session the handler redirects to the login page; with
    one it shows exactly the rows of that user (each once, none of another
    user), ordered from newest to oldest. *)
Theorem view_transactions_shows_own_rows (get_current_user : Request → option User.t)
    (request : Request) (st : State) :
  (get_current_user request = None →
     view_transactions get_current_user request st = RedirectResponse "/auth/login")
  ∧ ∀ user, get_current_user request = Some user →
      ∃ rows, view_transactions get_current_user request st = DashboardPage user rows
        ∧ rows ≡ₚ user_transactions (db st) (User.user_id user)
        ∧ Forall (λ x, Transaction.user_id x = User.user_id user) rows
        ∧ (∀ x, x ∈ rows ↔ x ∈ transactions (db st)
                           ∧ Transaction.user_id x = User.user_id user)
        ∧ StronglySorted newest_first rows.
Proof.
  unfold view_transactions. split; [by intros ->|].
  intros user ->. eexists. split; [reflexivity|].
  pose proof (merge_sort_Permutation newest_first
                (user_transactions (db st) (User.user_id user))) as Hperm.
  split; [exact Hperm|]. split; [|split].
  - rewrite Hperm. unfold user_transactions. apply Forall_forall.
    intros x Hx. by apply list_elem_of_filter in Hx as [? _].
  - intros x. rewrite Hperm. unfold user_transactions.
    rewrite list_elem_of_filter. tauto.
  - apply StronglySorted_merge_sort; apply _.
Qed.

Lemma view_transactions_shows_own_rows_witness :
  view_transactions (λ _, None) request0 st_paid = RedirectResponse "/auth/login"
  ∧ view_transactions (λ _, Some alice) request0 st_paid
    = DashboardPage alice [Transaction.with_is_fraud (Some false) candidate]
  ∧ view_transactions (λ _, Some mallory) request0 st_paid = DashboardPage mallory [].
Proof.
  destruct (view_transactions_shows_own_rows (λ _, None) request0 st_paid) as [Hnone _].
  split; [exact (Hnone eq_refl)|].
  split; vm_compute; reflexivity.
Defined.

(** ** Enrichment *)

(** X10.  The device id is never the empty string.  A non-empty cookie
    wins; failing that (no cookie, or an empty one) a non-empty header is
    used; failing both, the sentinel. *)
Theorem device_id_is_never_empty (request : Request) :
  get_device_id_from_request request ≠ ""
  ∧ (∀ c, cookies request !! "device_id" = Some c → c ≠ "" →
       get_device_id_from_request request = c)
  ∧ (∀ h, truthy_str (cookies request !! "device_id") = false →
       headers request !! "X-Device-ID" = Some h → h ≠ "" →
       get_device_id_from_request request = h)
  ∧ (truthy_str (cookies request !! "device_id") = false →
     truthy_str (headers request !! "X-Device-ID") = false →
     get_device_id_from_request request = "unknown_device").
Proof.
  unfold get_device_id_from_request.
  destruct (cookies request !! "device_id") as [c|]; simpl;
    [destruct (String.eqb c "") eqn:Ec; simpl;
     [apply String.eqb_eq in Ec|rewrite ?Ec; simpl; apply String.eqb_neq in Ec]|];
    (destruct (headers request !! "X-Device-ID") as [h|]; simpl;
     [destruct (String.eqb h "") eqn:Eh; simpl;
      [apply String.eqb_eq in Eh|rewrite ?Eh; simpl; apply String.eqb_neq in Eh]|]).
  all: split; [try done|].
  all: split; [intros c' Hc' ?; by simplify_eq|].
  all: split; [intros h' ? Hh' ?; by simplify_eq|].
  all: by intros.
Qed.

Lemma device_id_is_never_empty_witness :
  get_device_id_from_request
    {| cookies := {[ "device_id" := "" ]};
       headers := {[ "X-Device-ID" := "from-header" ]} |} = "from-header"
  ∧ get_device_id_from_request request0 = "unknown_device".
Proof.
  split.
  - destruct (device_id_is_never_empty
                {| cookies := {[ "device_id" := "" ]};
                   headers := {[ "X-Device-ID" := "from-header" ]} |})
      as (_ & _ & Hheader & _).
    apply Hheader; [reflexivity|reflexivity|discriminate].
  - destruct (device_id_is_never_empty request0) as (_ & _ & _ & Hnone).
    apply Hnone; reflexivity.
Defined.


(** X11.  Enrichment keeps its two sources apart: the device id depends
    on the request only, the address and location on the lookup only, and
    the initiation mode is Default whatever either of them is. *)
Theorem enrichment_is_separable (request request' : Request) (net net' : HttpGet) :
  ∃ d d1 d2,
    calculate_derived_columns request net = inr d
    ∧ calculate_derived_columns request' net = inr d1
    ∧ calculate_derived_columns request net' = inr d2
    ∧ device_id d2 = device_id d
    ∧ device_id d = get_device_id_from_request request
    ∧ (ip_address d1, country d1, city d1, latitude d1, longitude d1)
      = (ip_address d, country d, city d, latitude d, longitude d)
    ∧ initiation_mode d = "Default".
Proof.
  unfold calculate_derived_columns.
  destruct (get_ip_and_location_data_total net) as ([ip loc] & -> & _).
  destruct (get_ip_and_location_data_total net') as ([ip' loc'] & -> & _).
  simpl. do 3 eexists. repeat split; reflexivity.
Qed.

(** ** Submission, continued *)

Lemma filter_other_ids_fresh (l : list Transaction.t) txn_id :
  filter (λ x, Transaction.transaction_id x = txn_id) l = [] →
  filter (λ x, Transaction.transaction_id x ≠ txn_id) l = l.
Proof.
  induction l as [|x l IH]; [done|].
  rewrite !filter_cons. destruct (decide (Transaction.transaction_id x = txn_id)).
  - discriminate.
  - intros Hl. rewrite decide_True by done. by rewrite IH.
Qed.

Lemma delete_commit_appended d x :
  get_transaction d (Transaction.transaction_id x) = None →
  delete_commit (Transaction.transaction_id x)
    (with_transactions (transactions d ++ [x])%list d) = d.
Proof.
  intros Hfresh. unfold delete_commit, with_transactions. simpl.
  rewrite filter_app, filter_cons, decide_False by (intros H; by apply H).
  rewrite filter_nil, app_nil_r.
  rewrite (filter_other_ids_fresh _ _ (get_transaction_None_filter _ _ Hfresh)).
  by destruct d.
Qed.

Lemma get_transaction_appended d x :
  get_transaction d (Transaction.transaction_id x) = None →
  get_transaction (with_transactions (transactions d ++ [x])%list d)
    (Transaction.transaction_id x) = Some x.
Proof.
  intros Hfresh. unfold get_transaction, with_transactions. simpl.
  rewrite filter_app, (get_transaction_None_filter _ _ Hfresh).
  rewrite filter_cons, decide_True by done. done.
Qed.

Lemma count_transactions_appended d x uid :
  count_transactions (with_transactions (transactions d ++ [x])%list d) uid
  = if decide (Transaction.user_id x = uid)
    then S (count_transactions d uid) else count_transactions d uid.
Proof.
  unfold count_transactions, user_transactions, with_transactions. simpl.
  rewrite filter_app, length_app, filter_cons.
  destruct (decide (Transaction.user_id x = uid)); simpl; lia.
Qed.

(** What [process_transaction] does for a prediction other than 1. *)
Lemma process_not_challenged w request amount ty pm rcpt (u : User.t) st profile d r :
  query_profile (db st) (User.user_id u) = Some profile →
  calculate_derived_columns request (http_get w) = inr d →
  get_transaction (db st) (uuid4 w) = None →
  let cand := new_transaction w u amount ty pm rcpt profile d in
  run_fraud_pipeline w cand profile (count_transactions (db st) (User.user_id u))
    (last_location (db st) (User.user_id u)) (db st) = inr r →
  final_prediction r ≠ 1 →
  ∃ td,
    process_transaction w request amount ty pm rcpt u st
    = (inr (TransactionResults u td r),
       with_db (with_transactions
                  (transactions (db st) ++ [Transaction.with_is_fraud (Some false) cand])%list
                  (db st)) st).
Proof.
  intros Hp Hd Hfresh cand Hr Hne. eexists. unfold process_transaction.
  rewrite (process_scored _ _ _ _ _ _ _ _ _ _ _ Hp Hd Hr).
  destruct (Z.eqb_spec (final_prediction r) 1) as [|_]; [contradiction|].
  fold cand. rewrite add_commit_fresh by exact Hfresh. reflexivity.
Qed.

(** X13.  Deleting is final: after a delete request for an id, whether it
    found the row or not, a further delete request for the same id by
    anyone answers 404 and changes nothing; an id that is not in the table
    gets 404 at once. *)
Theorem delete_twice_is_not_found (txn_id : string) (u1 u2 : User.t) (st : State) :
  let st1 := (delete_transaction txn_id u1 st).2 in
  delete_transaction txn_id u2 st1
  = (inl (HTTPException 404 "Transaction not found"), st1)
  ∧ (get_transaction (db st) txn_id = None →
     delete_transaction txn_id u1 st
     = (inl (HTTPException 404 "Transaction not found"), st)).
Proof.
  simpl. unfold delete_transaction.
  destruct (get_transaction (db st) txn_id) as [x|] eqn:Hget; simpl.
  - rewrite get_transaction_delete_commit. split; [done|discriminate].
  - rewrite Hget. done.
Qed.

(** X12.  Submitting and deleting is a round trip on the table: after a
    transfer has been committed by [process_transaction] (existing
    profile, unused identifier, a prediction other than 1), a delete
    request for the drawn identifier, by any user, succeeds and gives back
    the state from before the submission. *)
Theorem submit_then_delete_restores (w : World) (request : Request) (amount : float)
    (ty pm rcpt : string) (u u' : User.t) (st : State) (profile : Profile.t)
    (d : Derived) (r : FraudResult) :
  query_profile (db st) (User.user_id u) = Some profile →
  calculate_derived_columns request (http_get w) = inr d →
  get_transaction (db st) (uuid4 w) = None →
  run_fraud_pipeline w (new_transaction w u amount ty pm rcpt profile d) profile
    (count_transactions (db st) (User.user_id u))
    (last_location (db st) (User.user_id u)) (db st) = inr r →
  final_prediction r ≠ 1 →
  let st1 := (process_transaction w request amount ty pm rcpt u st).2 in
  get_transaction (db st1) (uuid4 w)
  = Some (Transaction.with_is_fraud (Some false)
            (new_transaction w u amount ty pm rcpt profile d))
  ∧ delete_transaction (uuid4 w) u' st1 = (inr "Transaction deleted", st).
Proof.
  intros Hp Hd Hfresh Hr Hne. simpl.
  destruct (process_not_challenged _ _ _ _ _ _ _ _ _ _ _ Hp Hd Hfresh Hr Hne) as [td ->].
  simpl.
  pose (row := Transaction.with_is_fraud (Some false)
                 (new_transaction w u amount ty pm rcpt profile d)).
  assert (Hget : get_transaction
                   (with_transactions (transactions (db st) ++ [row])%list (db st))
                   (uuid4 w) = Some row)
    by apply (get_transaction_appended (db st) row Hfresh).
  split; [exact Hget|].
  unfold delete_transaction. simpl. fold row. rewrite Hget. simpl.
  pose proof (delete_commit_appended (db st) row Hfresh) as Hback.
  change (Transaction.transaction_id row) with (uuid4 w) in Hback.
  rewrite Hback. by destruct st.
Qed.

Lemma submit_then_delete_restores_witness :
  let w := w_noon 0 true in
  let st1 := (process_transaction w request0 250%float "transfer" "upi" "bob@upi"
                alice st0).2 in
  st1 = st_paid
  ∧ delete_transaction (uuid4 w) mallory st1 = (inr "Transaction deleted", st0).
Proof.
  intros w st1.
  destruct (submit_then_delete_restores w request0 250%float "transfer" "upi" "bob@upi"
              alice mallory st0 alice_profile derived0
              {| final_prediction := 0; report := "scored" |}
              eq_refl eq_refl eq_refl eq_refl) as [_ Hdel]; [simpl; lia|].
  split; [vm_compute; reflexivity|exact Hdel].
Defined.

(** X14.  A committed submission adds one to the history count of the
    submitting user and to nobody else's: after [process_transaction] has
    committed a transfer (existing profile, unused identifier, a prediction
    other than 1), the user's count is the old count plus one and every
    other user's count is unchanged. *)
Theorem committed_submission_counts_once (w : World) (request : Request)
    (amount : float) (ty pm rcpt : string) (u : User.t) (st : State)
    (profile : Profile.t) (d : Derived) (r : FraudResult) :
  query_profile (db st) (User.user_id u) = Some profile →
  calculate_derived_columns request (http_get w) = inr d →
  get_transaction (db st) (uuid4 w) = None →
  run_fraud_pipeline w (new_transaction w u amount ty pm rcpt profile d) profile
    (count_transactions (db st) (User.user_id u))
    (last_location (db st) (User.user_id u)) (db st) = inr r →
  final_prediction r ≠ 1 →
  let st1 := (process_transaction w request amount ty pm rcpt u st).2 in
  count_transactions (db st1) (User.user_id u)
  = S (count_transactions (db st) (User.user_id u))
  ∧ ∀ other, other ≠ User.user_id u →
      count_transactions (db st1) other = count_transactions (db st) other.
Proof.
  intros Hp Hd Hfresh Hr Hne. simpl.
  destruct (process_not_challenged _ _ _ _ _ _ _ _ _ _ _ Hp Hd Hfresh Hr Hne) as [td ->].
  simpl. split.
  - rewrite count_transactions_appended. by rewrite decide_True.
  - intros other Hother. rewrite count_transactions_appended.
    rewrite decide_False; [done|]. simpl. congruence.
Qed.

Lemma committed_submission_counts_once_witness :
  let w := w_noon 0 true in
  let st1 := (process_transaction w request0 250%float "transfer" "upi" "bob@upi"
                alice st0).2 in
  count_transactions (db st1) (User.user_id alice) = 1%nat
  ∧ count_transactions (db st1) (User.user_id mallory) = 0%nat.
Proof.
  intros w st1.
  destruct (committed_submission_counts_once w request0 250%float "transfer" "upi"
              "bob@upi" alice st0 alice_profile derived0
              {| final_prediction := 0; report := "scored" |}
              eq_refl eq_refl eq_refl eq_refl) as [Hown Hother]; [simpl; lia|].
  split; [exact Hown|]. apply (Hother 2). simpl. lia.
Defined.

(** X1.  A caller without a profile is turned away before anything is
    read or written: the legacy submission and the legacy verification
    raise 404 and leave the state alone; [process_transaction] raises the
    same 404 inside its own [try], so its caller sees status 500 with the
    404 quoted in the detail, and the state is unchanged as well. *)
Theorem missing_profile_is_rejected (w : World) (request : Request) (amount : float)
    (ty pm rcpt : string) (otp : Z) (u : User.t) (st : State) :
  query_profile (db st) (User.user_id u) = None →
  create_and_predict_transaction w request amount ty pm rcpt u st
  = (inl (HTTPException 404 "User profile not found"), st)
  ∧ verify_otp otp u st = (inl (HTTPException 404 "User profile not found"), st)
  ∧ process_transaction w request amount ty pm rcpt u st
    = (inl (HTTPException 500
              ("Transaction processing failed: "
               ++ str_exn (HTTPException 404 "User profile not found"))), st).
Proof.
  intros Hp.
  unfold create_and_predict_transaction, verify_otp, process_transaction, process_body.
  by rewrite Hp.
Qed.

Lemma missing_profile_is_rejected_witness :
  let nobody := {| User.user_id := 9; User.email := "nobody@example.com" |} in
  query_profile (db st0) (User.user_id nobody) = None
  ∧ (create_and_predict_transaction (w_noon 1 true) request0 250%float "transfer" "upi"
       "bob@upi" nobody st0).1 = inl (HTTPException 404 "User profile not found")
  ∧ (process_transaction (w_noon 1 true) request0 250%float "transfer" "upi"
       "bob@upi" nobody st0).2 = st0.
Proof.
  intros nobody.
  destruct (missing_profile_is_rejected (w_noon 1 true) request0 250%float "transfer"
              "upi" "bob@upi" 123456 nobody st0 eq_refl) as (Hlegacy & _ & Hproc).
  split; [reflexivity|]. split; [by rewrite Hlegacy|by rewrite Hproc].
Defined.

(** X2.  When the scorer raises, the two submission endpoints part ways.
    The legacy endpoint has already committed the candidate: the error
    reaches the caller as it is and the row stays in the table with its
    fraud flag undetermined; no code is stored.  [process_transaction] has
    written nothing: it answers 500 quoting the error and the state is the
    one before. *)
Theorem scorer_failure_paths (w : World) (request : Request) (amount : float)
    (ty pm rcpt : string) (u : User.t) (st : State) (profile : Profile.t)
    (d : Derived) (e : exn) :
  query_profile (db st) (User.user_id u) = Some profile →
  calculate_derived_columns request (http_get w) = inr d →
  let uid := User.user_id u in
  let cand := new_transaction w u amount ty pm rcpt profile d in
  let scored := with_transactions (transactions (db st) ++ [cand])%list (db st) in
  (get_transaction (db st) (uuid4 w) = None →
   run_fraud_pipeline w cand profile (count_transactions scored uid)
     (last_location (db st) uid) scored = inl e →
   create_and_predict_transaction w request amount ty pm rcpt u st
   = (inl e, with_db scored st)
   ∧ Transaction.is_fraud cand = None)
  ∧ (run_fraud_pipeline w cand profile (count_transactions (db st) uid)
       (last_location (db st) uid) (db st) = inl e →
     process_transaction w request amount ty pm rcpt u st
     = (inl (HTTPException 500 ("Transaction processing failed: " ++ str_exn e)), st)).
Proof.
  intros Hp Hd. simpl. split.
  - intros Hfresh Hr. split; [|reflexivity].
    unfold create_and_predict_transaction. rewrite Hp, Hd.
    rewrite add_commit_fresh by exact Hfresh. by rewrite Hr.
  - intros Hr. unfold process_transaction, process_body. rewrite Hp, Hd. simpl.
    by rewrite Hr.
Qed.

Lemma scorer_failure_paths_witness :
  let w := {| now := clock 12 0; uuid4 := "7f9c24e8-3b12-4f6a-9d55-0c1e2a3b4c5d";
              randint := 123456; http_get := GetRaises (RequestException "timeout");
              run_fraud_pipeline := λ _ _ _ _ _, inl (OtherException "model not loaded");
              settings := mail_settings;
              smtp_connect := λ _ _, None; smtp_login_send := λ _ _ _, None |} in
  let legacy := create_and_predict_transaction w request0 250%float "transfer" "upi"
                  "bob@upi" alice st0 in
  legacy.1 = inl (OtherException "model not loaded")
  ∧ transactions (db legacy.2) = [candidate]
  ∧ otp_store legacy.2 = ∅
  ∧ process_transaction w request0 250%float "transfer" "upi" "bob@upi" alice st0
    = (inl (HTTPException 500 "Transaction processing failed: model not loaded"), st0).
Proof.
  intros w legacy.
  destruct (scorer_failure_paths w request0 250%float "transfer" "upi" "bob@upi" alice
              st0 alice_profile derived0 (OtherException "model not loaded")
              eq_refl eq_refl) as [Hlegacy Hproc].
  destruct (Hlegacy eq_refl eq_refl) as [Hl _].
  unfold legacy. rewrite Hl.
  split; [reflexivity|]. split; [reflexivity|]. split; [reflexivity|].
  exact (Hproc eq_refl).
Defined.

(** X18.  The two submission endpoints read a prediction that is neither
    0 nor 1 in opposite ways.  [process_transaction] compares with 1: it
    commits the transfer as not fraudulent and shows the result page.  The
    legacy endpoint takes the truth value: it commits the same candidate
    as fraudulent and stores a code for the payer. *)
Theorem non_binary_prediction_diverges (w : World) (request : Request) (amount : float)
    (ty pm rcpt : string) (u : User.t) (st : State) (profile : Profile.t)
    (d : Derived) (r : FraudResult) :
  query_profile (db st) (User.user_id u) = Some profile →
  calculate_derived_columns request (http_get w) = inr d →
  get_transaction (db st) (uuid4 w) = None →
  final_prediction r ≠ 0 → final_prediction r ≠ 1 →
  let uid := User.user_id u in
  let cand := new_transaction w u amount ty pm rcpt profile d in
  let scored := with_transactions (transactions (db st) ++ [cand])%list (db st) in
  (run_fraud_pipeline w cand profile (count_transactions (db st) uid)
     (last_location (db st) uid) (db st) = inr r →
   ∃ td, process_transaction w request amount ty pm rcpt u st
         = (inr (TransactionResults u td r),
            with_db (with_transactions
                       (transactions (db st)
                        ++ [Transaction.with_is_fraud (Some false) cand])%list
                       (db st)) st))
  ∧ (run_fraud_pipeline w cand profile (count_transactions scored uid)
       (last_location (db st) uid) scored = inr r →
     (create_and_predict_transaction w request amount ty pm rcpt u st).2
     = {| db := with_transactions
                  (transactions (db st)
                   ++ [Transaction.with_is_fraud (Some true) cand])%list (db st);
          otp_store := <[Some (Profile.upi_id profile) := OtpInt (randint w)]>
                         (otp_store st) |}).
Proof.
  intros Hp Hd Hfresh Hn0 Hn1. simpl. split.
  - intros Hr. exact (process_not_challenged _ _ _ _ _ _ _ _ _ _ _ Hp Hd Hfresh Hr Hn1).
  - intros Hr.
    rewrite (create_and_predict_scored _ _ _ _ _ _ _ _ _ _ _ Hp Hd Hfresh Hr).
    by destruct (Z.eqb_spec (final_prediction r) 0).
Qed.

Lemma non_binary_prediction_diverges_witness :
  let w := w_noon 2 true in
  transactions (db (process_transaction w request0 250%float "transfer" "upi" "bob@upi"
                      alice st0).2)
  = [Transaction.with_is_fraud (Some false) candidate]
  ∧ transactions (db (create_and_predict_transaction w request0 250%float "transfer"
                        "upi" "bob@upi" alice st0).2)
    = [Transaction.with_is_fraud (Some true) candidate].
Proof.
  intros w.
  destruct (non_binary_prediction_diverges w request0 250%float "transfer" "upi"
              "bob@upi" alice st0 alice_profile derived0
              {| final_prediction := 2; report := "scored" |}
              eq_refl eq_refl eq_refl) as [Hproc Hlegacy]; [simpl; lia|simpl; lia|].
  destruct (Hproc eq_refl) as [td ->]. rewrite (Hlegacy eq_refl). split; reflexivity.
Defined.

(** ** The legacy challenge *)

(** X6.  The legacy verification is bound to the caller's own payment
    handle.  It succeeds exactly when the caller has a profile and the
    store holds, under that profile's handle, the integer supplied, which
    must not be 0; it then removes that one entry.  It never writes to the
    database, never touches another key, and a failed attempt changes
    nothing at all. *)
Theorem legacy_verify_characterised (otp : Z) (u : User.t) (st : State) :
  ((verify_otp otp u st).1 = inr "OTP verified successfully. Transaction approved."
   ↔ ∃ profile, query_profile (db st) (User.user_id u) = Some profile
       ∧ otp_store st !! Some (Profile.upi_id profile) = Some (OtpInt otp)
       ∧ otp ≠ 0)
  ∧ (∀ e, (verify_otp otp u st).1 = inl e → (verify_otp otp u st).2 = st)
  ∧ db (verify_otp otp u st).2 = db st
  ∧ (∀ profile k, query_profile (db st) (User.user_id u) = Some profile →
       k ≠ Some (Profile.upi_id profile) →
       otp_store (verify_otp otp u st).2 !! k = otp_store st !! k)
  ∧ (∀ profile msg, query_profile (db st) (User.user_id u) = Some profile →
       (verify_otp otp u st).1 = inr msg →
       otp_store (verify_otp otp u st).2 !! Some (Profile.upi_id profile) = None).
Proof.
  unfold verify_otp.
  destruct (query_profile (db st) (User.user_id u)) as [profile|]; simpl.
  2: { split; [split; [done|by intros (? & ? & _)]|].
       repeat split; intros; simplify_eq; done. }
  destruct (otp_store st !! Some (Profile.upi_id profile)) as [v|] eqn:Hv; simpl.
  2: { split; [split; [done|intros (? & ? & ? & _); simplify_eq; congruence]|].
       repeat split; intros; simplify_eq; done. }
  destruct v as [n|s]; simpl.
  2: { rewrite orb_true_r. split; [split; [done|intros (? & ? & ? & _); congruence]|].
       repeat split; intros; simplify_eq; done. }
  destruct (Z.eqb_spec n 0) as [Hn0|Hn0], (Z.eqb_spec n otp) as [Hno|Hno]; simpl.
  all: split; [split; [try done|intros (? & ? & ? & ?); simplify_eq; try done]|].
  all: try (intros _; exists profile; by subst).
  all: split; [intros; simplify_eq; done|].
  all: split; [done|].
  all: split; [intros ? k ? Hk; simplify_eq; simpl; try done; by rewrite lookup_delete_ne|].
  all: intros ? msg ? Hmsg; simplify_eq; simpl; apply lookup_delete_eq.
Qed.

Lemma legacy_verify_characterised_witness :
  let st1 := (create_and_predict_transaction (w_noon 1 true) request0 250%float
                "transfer" "upi" "bob@upi" alice st0).2 in
  (verify_otp 123456 alice st1).1 = inr "OTP verified successfully. Transaction approved."
  ∧ (verify_otp 123456 mallory st1).2 = st1.
Proof.
  intros st1.
  destruct (legacy_verify_characterised 123456 alice st1) as (Hok & _).
  destruct (legacy_verify_characterised 123456 mallory st1) as (_ & Hfail & _).
  split.
  - apply Hok. exists alice_profile. repeat split; [reflexivity..|lia].
  - apply (Hfail (HTTPException 400 "Invalid or expired OTP")). reflexivity.
Defined.


(** X7.  The two endpoints share one store but not their codes.  A text
    code, as the step-up endpoint stores it, is rejected by the legacy
    verification whatever integer is supplied; an integer code, as the
    legacy endpoint stores it, is rejected by the step-up verification
    whatever text is supplied.  So a step-up issue under a payer's handle
    leaves that payer unable to pass the legacy verification. *)
Theorem endpoints_do_not_share_codes (w w' : World) (u u' : User.t)
    (profile : Profile.t) (email td : option string) (st : State) (s : string) (n : Z) :
  (query_profile (db st) (User.user_id u) = Some profile →
   otp_store st !! Some (Profile.upi_id profile) = Some (OtpStr s) →
   ∀ code, verify_otp code u st = (inl (HTTPException 400 "Invalid or expired OTP"), st))
  ∧ (otp_store st !! email = Some (OtpInt n) →
     ∀ o, step_up_verify w "verify_otp" email o td u' st
          = (Some (invalid_otp_page u' email td), st))
  ∧ (query_profile (db st) (User.user_id u) = Some profile →
     let st1 := (step_up_verify w' "send_otp" (Some (Profile.upi_id profile)) None td
                   u' st).2 in
     ∀ code, verify_otp code u st1
             = (inl (HTTPException 400 "Invalid or expired OTP"), st1)).
Proof.
  assert (Htext : ∀ st0 s0, query_profile (db st0) (User.user_id u) = Some profile →
            otp_store st0 !! Some (Profile.upi_id profile) = Some (OtpStr s0) →
            ∀ code, verify_otp code u st0
                    = (inl (HTTPException 400 "Invalid or expired OTP"), st0)).
  { intros st0 s0 Hp Hv code. unfold verify_otp. rewrite Hp, Hv. simpl.
    by rewrite orb_true_r. }
  split; [apply Htext|]. split.
  - intros Hv o. by apply (verify_mismatch _ _ _ _ _ _ _ Hv).
  - intros Hp. simpl.
    rewrite (issue_store w' "send_otp" _ None td u' st (or_introl eq_refl)).
    apply (Htext _ (pretty (randint w'))); [exact Hp|]. apply lookup_insert_eq.
Qed.

Lemma endpoints_do_not_share_codes_witness :
  let w := w_noon 1 true in
  let legacy := (create_and_predict_transaction w request0 250%float "transfer" "upi"
                   "bob@upi" alice st0).2 in
  let blocked := (step_up_verify w "send_otp" (Some "alice@upi") None None mallory
                    legacy).2 in
  otp_store legacy !! Some "alice@upi" = Some (OtpInt 123456)
  ∧ step_up_verify w "verify_otp" (Some "alice@upi") (Some "123456") None alice legacy
    = (Some (invalid_otp_page alice (Some "alice@upi") None), legacy)
  ∧ verify_otp 123456 alice blocked
    = (inl (HTTPException 400 "Invalid or expired OTP"), blocked).
Proof.
  intros w legacy blocked.
  assert (Hint : otp_store legacy !! Some "alice@upi" = Some (OtpInt 123456))
    by (vm_compute; reflexivity).
  destruct (endpoints_do_not_share_codes w w alice mallory alice_profile
              (Some "alice@upi") None legacy "123456" 123456) as (_ & Hstep & Hblock).
  destruct (endpoints_do_not_share_codes w w alice alice alice_profile
              (Some "alice@upi") None legacy "123456" 123456) as (_ & Hstep' & _).
  split; [exact Hint|]. split; [exact (Hstep' Hint (Some "123456"))|].
  apply (Hblock eq_refl).
Defined.

(** X19.  Issue and verify are a round trip on the legacy path.  After a
    legacy submission judged fraudulent (existing profile, unused
    identifier, a drawn code other than 0), whatever the mail did, the
    same caller passes the legacy verification with the drawn code; the
    store is then the store from before the submission without the
    payer's key, and the committed row stays flagged as fraud. *)
Theorem legacy_issue_then_verify (w : World) (request : Request) (amount : float)
    (ty pm rcpt : string) (u : User.t) (st : State) (profile : Profile.t)
    (d : Derived) (r : FraudResult) :
  query_profile (db st) (User.user_id u) = Some profile →
  calculate_derived_columns request (http_get w) = inr d →
  get_transaction (db st) (uuid4 w) = None →
  let uid := User.user_id u in
  let cand := new_transaction w u amount ty pm rcpt profile d in
  let scored := with_transactions (transactions (db st) ++ [cand])%list (db st) in
  run_fraud_pipeline w cand profile (count_transactions scored uid)
    (last_location (db st) uid) scored = inr r →
  final_prediction r ≠ 0 →
  randint w ≠ 0 →
  let st1 := (create_and_predict_transaction w request amount ty pm rcpt u st).2 in
  let verified := verify_otp (randint w) u st1 in
  verified.1 = inr "OTP verified successfully. Transaction approved."
  ∧ otp_store verified.2 = delete (Some (Profile.upi_id profile)) (otp_store st)
  ∧ transactions (db verified.2)
    = (transactions (db st) ++ [Transaction.with_is_fraud (Some true) cand])%list.
Proof.
  intros Hp Hd Hfresh uid cand scored Hr Hn0 Hcode. simpl.
  rewrite (create_and_predict_scored _ _ _ _ _ _ _ _ _ _ _ Hp Hd Hfresh Hr).
  destruct (Z.eqb_spec (final_prediction r) 0) as [|_]; [contradiction|]. simpl.
  rewrite (legacy_verify_match (randint w) u profile); simpl.
  - split; [done|]. split; [|done]. apply delete_insert_eq.
  - exact Hp.
  - apply lookup_insert_eq.
  - exact Hcode.
Qed.

Lemma legacy_issue_then_verify_witness :
  let w := w_noon 1 false in
  let st1 := (create_and_predict_transaction w request0 250%float "transfer" "upi"
                "bob@upi" alice st0).2 in
  (verify_otp 123456 alice st1).1 = inr "OTP verified successfully. Transaction approved."
  ∧ otp_store (verify_otp 123456 alice st1).2 = ∅.
Proof.
  intros w st1.
  destruct (legacy_issue_then_verify w request0 250%float "transfer" "upi" "bob@upi"
              alice st0 alice_profile derived0
              {| final_prediction := 1; report := "scored" |}
              eq_refl eq_refl eq_refl eq_refl) as (Hok & Hstore & _);
    [simpl; lia|simpl; lia|].
  split; [exact Hok|]. etrans; [exact Hstore|reflexivity].
Defined.

(** ** Mail *)

(** X8.  [send_otp_email] reports success in exactly two situations: no
    SMTP server is configured (nothing is sent, the code is only printed),
    or server, port, user name and password are all configured and both
    the connection and the hand-over of the message go through.  In every
    other situation it reports failure; it never raises. *)
Theorem send_otp_email_characterised (w : World) (email : option string) (otp : string) :
  (send_otp_email w email otp = inr true ∨ send_otp_email w email otp = inr false)
  ∧ (send_otp_email w email otp = inr true
     ↔ SMTP_SERVER (settings w) = None
       ∨ ∃ server port user password,
           SMTP_SERVER (settings w) = Some server
           ∧ SMTP_PORT (settings w) = Some port
           ∧ SMTP_USERNAME (settings w) = Some user
           ∧ SMTP_PASSWORD (settings w) = Some password
           ∧ smtp_connect w server port = None
           ∧ smtp_login_send w user password
               {| msg_from := user; msg_to := email;
                  msg_subject := "CipherStorm - Transaction Verification OTP";
                  msg_body := HtmlOtpBody otp |} = None).
Proof.
  unfold send_otp_email, try_except.
  destruct (SMTP_SERVER (settings w)) as [server|]; [|split; [by left|split; eauto]].
  destruct (SMTP_PORT (settings w)) as [port|]; simpl;
    [|split; [by right|split; [done|intros [|(?&?&?&?&?&?&_)]; done]]].
  destruct (smtp_connect w server port) as [e|] eqn:Hconn; simpl;
    [split; [by right|split; [done|intros [|(?&?&?&?&?&?&?&?&?&_)]; congruence]]|].
  destruct (SMTP_USERNAME (settings w)) as [user|]; simpl;
    [|split; [by right|split; [done|intros [|(?&?&?&?&?&?&?&_)]; done]]].
  destruct (SMTP_PASSWORD (settings w)) as [password|]; simpl;
    [|split; [by right|split; [done|intros [|(?&?&?&?&?&?&?&?&_)]; done]]].
  destruct (smtp_login_send w user password _) as [e|] eqn:Hsend; simpl.
  - split; [by right|]. split; [done|].
    intros [|(?&?&?&?&?&?&?&?&?&Hs)]; [done|]. simplify_eq; congruence.
  - split; [by left|]. split; [|done]. intros _. right.
    exists server, port, user, password. by repeat split.
Qed.

(** X9.  A resend always replaces the code and always answers with the
    page in its code-sent state, carrying its message in the success slot:
    the success text when the mail went out, and the failure text, still
    in the success slot and with no error entry, when it did not. *)
Theorem resend_always_answers_sent (w : World) (email otp td : option string)
    (u : User.t) (st : State) :
  ∃ msg,
    step_up_verify w "resend_otp" email otp td u st
    = (Some (StepUp u true email td (Some msg) None),
       with_otp_store (<[email := OtpStr (pretty (randint w))]> (otp_store st)) st)
    ∧ (send_otp_email w email (pretty (randint w)) = inr true
       ∧ msg = "OTP resent successfully!"
       ∨ send_otp_email w email (pretty (randint w)) = inr false
         ∧ msg = "Failed to resend OTP.").
Proof.
  unfold step_up_verify. simpl.
  destruct (send_otp_email_total w email (pretty (randint w))) as [[] ->];
    eexists; (split; [reflexivity|]); [left|right]; done.
Qed.

(** X3.   The legacy mail goes out only when the sender address, server,
    port and password are all configured and both the connection and the
    hand-over go through; it has no fallback, and any missing setting or
    failing step is raised to the caller. *)
Theorem legacy_mail_characterised (w : World) (profile : Profile.t) (otp : Z) :
  send_legacy_mail w profile otp = inr ()
  ↔ ∃ sender server port password,
      EMAIL_FROM (settings w) = Some sender
      ∧ SMTP_SERVER (settings w) = Some server
      ∧ SMTP_PORT (settings w) = Some port
      ∧ EMAIL_PASSWORD (settings w) = Some password
      ∧ smtp_connect w server port = None
      ∧ smtp_login_send w sender password
          {| msg_from := sender; msg_to := Some (Profile.email profile);
             msg_subject := "Your OTP Code";
             msg_body := PlainBody ("Your OTP code is " ++ pretty otp
                                    ++ ". It is valid for 10 minutes.") |} = None.
Proof.
  unfold send_legacy_mail.
  destruct (EMAIL_FROM (settings w)) as [sender|]; simpl;
    [|split; [done|by intros (?&?&?&?&?&_)]].
  destruct (SMTP_SERVER (settings w)) as [server|]; simpl;
    [|split; [done|by intros (?&?&?&?&?&?&_)]].
  destruct (SMTP_PORT (settings w)) as [port|]; simpl;
    [|split; [done|by intros (?&?&?&?&?&?&?&_)]].
  destruct (smtp_connect w server port) as [e|] eqn:Hconn; simpl;
    [split; [done|intros (?&?&?&?&?&?&?&?&?&_); congruence]|].
  destruct (EMAIL_PASSWORD (settings w)) as [password|]; simpl;
    [|split; [done|by intros (?&?&?&?&?&?&?&?&_)]].
  destruct (smtp_login_send w sender password _) as [e|] eqn:Hsend; simpl.
  - split; [done|]. intros (?&?&?&?&?&?&?&?&?&Hs). simplify_eq; congruence.
  - split; [|done]. intros _. exists sender, server, port, password. by repeat split.
Qed.

(** X20.  In the legacy endpoint the mail decides the response and nothing
    else.  For a submission judged fraudulent (existing profile, unused
    identifier) the stored state is the same whether the mail went out or
    not, committed row and code included; the caller gets the confirmation
    exactly when the mail went out, and otherwise the very exception the
    mail raised. *)
Theorem legacy_response_is_the_mail_outcome (w : World) (request : Request)
    (amount : float) (ty pm rcpt : string) (u : User.t) (st : State)
    (profile : Profile.t) (d : Derived) (r : FraudResult) :
  query_profile (db st) (User.user_id u) = Some profile →
  calculate_derived_columns request (http_get w) = inr d →
  get_transaction (db st) (uuid4 w) = None →
  let uid := User.user_id u in
  let cand := new_transaction w u amount ty pm rcpt profile d in
  let scored := with_transactions (transactions (db st) ++ [cand])%list (db st) in
  run_fraud_pipeline w cand profile (count_transactions scored uid)
    (last_location (db st) uid) scored = inr r →
  final_prediction r ≠ 0 →
  let out := create_and_predict_transaction w request amount ty pm rcpt u st in
  out.2 = {| db := with_transactions
                     (transactions (db st)
                      ++ [Transaction.with_is_fraud (Some true) cand])%list (db st);
             otp_store := <[Some (Profile.upi_id profile) := OtpInt (randint w)]>
                            (otp_store st) |}
  ∧ (out.1 = inr (Detail "Fraud detected. OTP sent to registered email.")
     ↔ send_legacy_mail w profile (randint w) = inr ())
  ∧ (∀ e, out.1 = inl e ↔ send_legacy_mail w profile (randint w) = inl e).
Proof.
  intros Hp Hd Hfresh uid cand scored Hr Hn0. simpl.
  rewrite (create_and_predict_scored _ _ _ _ _ _ _ _ _ _ _ Hp Hd Hfresh Hr).
  destruct (Z.eqb_spec (final_prediction r) 0) as [|_]; [contradiction|]. simpl.
  split; [reflexivity|].
  destruct (send_legacy_mail w profile (randint w)) as [e|[]]; simpl.
  - split; [split; discriminate|]. intros e'. split; congruence.
  - split; [done|]. intros e'. split; discriminate.
Qed.

Lemma legacy_response_is_the_mail_outcome_witness :
  let up := create_and_predict_transaction (w_noon 1 true) request0 250%float
              "transfer" "upi" "bob@upi" alice st0 in
  let down := create_and_predict_transaction (w_noon 1 false) request0 250%float
                "transfer" "upi" "bob@upi" alice st0 in
  up.2 = down.2
  ∧ up.1 = inr (Detail "Fraud detected. OTP sent to registered email.")
  ∧ down.1 = inl (SMTPException "connection refused").
Proof.
  intros up down.
  destruct (legacy_response_is_the_mail_outcome (w_noon 1 true) request0 250%float
              "transfer" "upi" "bob@upi" alice st0 alice_profile derived0
              {| final_prediction := 1; report := "scored" |}
              eq_refl eq_refl eq_refl eq_refl) as (Hup & Hsent & _); [simpl; lia|].
  destruct (legacy_response_is_the_mail_outcome (w_noon 1 false) request0 250%float
              "transfer" "upi" "bob@upi" alice st0 alice_profile derived0
              {| final_prediction := 1; report := "scored" |}
              eq_refl eq_refl eq_refl eq_refl) as (Hdown & _ & Hfailed); [simpl; lia|].
  split; [etrans; [exact Hup|symmetry; exact Hdown]|].
  split; [apply Hsent; reflexivity|apply Hfailed; reflexivity].
Defined.

(** ** The step-up endpoint, continued *)

(** X4.  The step-up endpoint never writes to the database, whatever the
    action and its outcome, a successful verification included; and of the
    store it touches at most the entry under the supplied [email]. *)
Theorem step_up_touches_only_its_key (w : World) (action : string)
    (email otp td : option string) (u : User.t) (st : State) :
  db (step_up_verify w action email otp td u st).2 = db st
  ∧ ∀ k, k ≠ email →
      otp_store (step_up_verify w action email otp td u st).2 !! k = otp_store st !! k.
Proof.
  unfold step_up_verify. split.
  - split_handler; reflexivity.
  - intros k Hk.
    split_handler; simpl; rewrite ?lookup_insert_ne, ?lookup_delete_ne by done; done.
Qed.

(** X5.  An action other than the three the endpoint knows is ignored: no
    page is rendered, no mail is sent and the state stays as it is. *)
Theorem unknown_action_is_ignored (w : World) (action : string)
    (email otp td : option string) (u : User.t) (st : State) :
  action ≠ "send_otp" → action ≠ "verify_otp" → action ≠ "resend_otp" →
  step_up_verify w action email otp td u st = (None, st).
Proof.
  intros H1 H2 H3. unfold step_up_verify.
  apply String.eqb_neq in H1, H2, H3. by rewrite H1, H2, H3.
Qed.

Lemma unknown_action_is_ignored_witness :
  step_up_verify (w_noon 1 true) "cancel" (Some "alice@example.com") None None alice st0
  = (None, st0).
Proof. by apply unknown_action_is_ignored. Defined.
